(** * pi-nbiot: the Waveshare SIM7080X NB-IoT HAT driver

    A shallow embedding of [pi_nbiot/waveshare.py] and the properties of its
    packet-data-context manager, certificate provisioning and MQTT session
    code.

    Modelling conventions.
    - The classes [DataService], [AuthType] and [PdpAction] write their
      names with a colon ([NAME: number]): these are annotations, so the
      three [Enum]s have no members.  A lookup of a name on the class
      ([PdpAction.DEACTIVATE]) raises AttributeError and nothing is an
      instance of [DataService].  The types of the same names stand for the
      objects a caller passes for these parameters, one per annotated name,
      carrying that name ([.name]), the number written next to it
      ([.value]) and the class's [is_ip]; they are truthy and [str] gives
      [Class.NAME].  Default arguments are not modelled: every call gives
      its arguments.
    - The controller object is the record [Hat]; the serial port and the
      power pin are the record [World]: the bytes waiting in the UART input
      buffer and the trace of everything the driver did to the outside
      (bytes written, sleeps, power pulses), oldest event first.
    - The modem is an oracle [modem]: from the trace so far it gives the
      bytes that reach the input buffer during a [sleep].  Bytes arrive only
      while the driver sleeps, which is the settle-then-drain reading the
      driver itself relies on.  The local file system is a partial map
      [files] from a path to the content of the regular file stored there.
    - A method is a function [St -> Result A * St]: exceptions are values,
      and the state reached when the exception was raised is kept.
    - Log records are not part of the trace.  Text is ASCII, so [encode]
      and [decode] are the identity: a modem that sends a byte above 127 is
      outside the model.  A path that is not a regular file does not exist
      (no directories or devices).  [math.ceil (a / b)] on integers is the
      exact ceiling of the quotient. *)

From Stdlib Require Import ZArith QArith Ascii String List Bool Lia DecimalString.
From stdpp Require Import base decidable option gmap strings list fin_maps.

Local Open Scope Z_scope.
Local Open Scope list_scope.

(** ** Text helpers: the [str] methods the driver calls *)

Definition CR : ascii := "013"%char.
Definition LF : ascii := "010"%char.
Definition DQUOTE : ascii := "034"%char.
Definition COMMA : ascii := ","%char.

Definition chr (c : ascii) : string := String c EmptyString.

(** [str(n)] for an integer, as an f-string renders it. *)
Definition str_of_Z (n : Z) : string := NilZero.string_of_int (Z.to_int n).

(** [s in (None, '')]: Python's [not s] on a string. *)
Definition str_falsy (s : string) : bool :=
  match s with EmptyString => true | String _ _ => false end.

(** [s.startswith(p)] *)
Definition startswith (s p : string) : bool := String.prefix p s.

(** [p in s] for two strings: [p] occurs in [s]. *)
Fixpoint str_contains (p s : string) : bool :=
  String.prefix p s ||
  match s with
  | EmptyString => false
  | String _ rest => str_contains p rest
  end.

(** [s.endswith(p)] as a proposition. *)
Definition ends_with (s p : string) : Prop := ∃ front, s = front +:+ p.

(** [s.split(c)] on a one-character separator: never empty. *)
Fixpoint split_go (c : ascii) (cur : string) (s : string) : list string :=
  match s with
  | EmptyString => [String.rev cur]
  | String a rest =>
      if Ascii.eqb a c then String.rev cur :: split_go c EmptyString rest
      else split_go c (String a cur) rest
  end.

Definition split (c : ascii) (s : string) : list string :=
  split_go c EmptyString s.

(** [s.replace(c, '')] on a one-character pattern. *)
Fixpoint remove_char (c : ascii) (s : string) : string :=
  match s with
  | EmptyString => EmptyString
  | String a rest =>
      if Ascii.eqb a c then remove_char c rest
      else String a (remove_char c rest)
  end.

(** The ASCII characters [str.strip()] removes. *)
Definition is_space (a : ascii) : bool :=
  let n := nat_of_ascii a in
  ((9 <=? n)%nat && (n <=? 13)%nat) || ((28 <=? n)%nat && (n <=? 32)%nat).

Fixpoint lstrip (s : string) : string :=
  match s with
  | EmptyString => EmptyString
  | String a rest => if is_space a then lstrip rest else s
  end.

Definition strip (s : string) : string :=
  String.rev (lstrip (String.rev (lstrip s))).

(** The read loop of [at_command]: [read_until(CR LF)] is called while
    bytes are waiting; each call takes the bytes up to and including the
    next CR LF, or all that is left when there is none. *)
Fixpoint read_chunks (cur : string) (prev_cr : bool) (buf : string)
  : list string :=
  match buf with
  | EmptyString =>
      match cur with
      | EmptyString => []
      | String _ _ => [String.rev cur]
      end
  | String a rest =>
      if prev_cr && Ascii.eqb a LF
      then String.rev (String a cur) :: read_chunks EmptyString false rest
      else read_chunks (String a cur) (Ascii.eqb a CR) rest
  end.

(** [response]: the stripped chunks that are not empty. *)
Definition response_lines (buf : string) : list string :=
  filter (λ l, l ≠ EmptyString) (strip <$> read_chunks EmptyString false buf).

(** [x in res] for a list of lines. *)
Definition line_in (x : string) (res : list string) : bool :=
  bool_decide (x ∈ res).

(** Every byte is below 128, so that [decode] succeeds. *)
Definition is_ascii (s : string) : bool :=
  forallb (λ a, (nat_of_ascii a <? 128)%nat) (list_ascii_of_string s).

(** [math.ceil(a / b)] for integers, [b] not zero. *)
Definition math_ceil_div (a b : Z) : Z := - ((- a) / b).

Definition crlf : string := String CR (String LF EmptyString).

Definition quoted (s : string) : string := chr DQUOTE +:+ s +:+ chr DQUOTE.

(** ** The data model *)

Inductive DataService := DUAL_PDN | IP_V4 | IP_V6 | NONIP | EX_NONIP.

Inductive AuthType := NONE | PAP | CHAP | PAP_CHAP.

Inductive PdpAction := DEACTIVATE | ACTIVATE | AUTO_ACTIVATE.

(** [isinstance(data_service, DataService)]: the class has no members,
    so no object is an instance of it. *)
Definition isinstance_DataService (data_service : DataService) : bool := false.

(** [a == b] on two action objects. *)
Definition PdpAction_eqb (a b : PdpAction) : bool :=
  match a, b with
  | DEACTIVATE, DEACTIVATE | ACTIVATE, ACTIVATE
  | AUTO_ACTIVATE, AUTO_ACTIVATE => true
  | _, _ => false
  end.

Definition DataService_name (d : DataService) : string :=
  match d with
  | DUAL_PDN => "DUAL_PDN" | IP_V4 => "IP_V4" | IP_V6 => "IP_V6"
  | NONIP => "NONIP" | EX_NONIP => "EX_NONIP"
  end.

Definition DataService_value (d : DataService) : Z :=
  match d with
  | DUAL_PDN => 0 | IP_V4 => 1 | IP_V6 => 2 | NONIP => 3 | EX_NONIP => 4
  end.

(** [__repr__]: the wire token; [EX_NONIP] falls off the chain of tests. *)
Definition DataService_repr (d : DataService) : option string :=
  match d with
  | NONIP => Some "Non-IP" | IP_V4 => Some "IP" | IP_V6 => Some "IPV6"
  | DUAL_PDN => Some "IPV4V6" | EX_NONIP => None
  end.

(** [str(d)]: the class defines [__repr__] only, so [str] is [Enum]'s. *)
Definition DataService_str (d : DataService) : string := "DataService." +:+ DataService_name d.

Definition DataService_is_ip (d : DataService) : bool :=
  match d with
  | NONIP | EX_NONIP => false
  | _ => true
  end.

Definition AuthType_value (a : AuthType) : Z :=
  match a with NONE => 0 | PAP => 1 | CHAP => 2 | PAP_CHAP => 3 end.

Definition PdpAction_name (a : PdpAction) : string :=
  match a with
  | DEACTIVATE => "DEACTIVATE" | ACTIVATE => "ACTIVATE"
  | AUTO_ACTIVATE => "AUTO_ACTIVATE"
  end.

Definition PdpAction_value (a : PdpAction) : Z :=
  match a with DEACTIVATE => 0 | ACTIVATE => 1 | AUTO_ACTIVATE => 2 end.

Module PdpContext.
Record t := mk {
  id : Z;
  apn : string;
  data_service : DataService;
  ip_address : option string;
  configured : bool;
  username : option string;
  password : option string;
  auth : option AuthType
}.

(** [__init__]: the members of [DataService] are all truthy, so the [or]
    defaults keep the arguments given. *)
Definition init (id : Z) (apn : string) (data_service : DataService) : t :=
  mk id apn data_service None false None None None.

Definition is_ip (c : t) : bool := DataService_is_ip (data_service c).

Definition set_ip_address (v : option string) (c : t) : t :=
  mk (id c) (apn c) (data_service c) v (configured c)
     (username c) (password c) (auth c).

(** The four assignments that end [pdp_context_configure]. *)
Definition set_configured (u p : string) (a : option AuthType) (c : t) : t :=
  mk (id c) (apn c) (data_service c) (ip_address c) true (Some u) (Some p) a.
End PdpContext.

Record Hat := mkHat {
  _baudrate : Z;
  _ready : option bool;
  _rf_enabled : option bool;
  _pdp_contexts : gmap Z PdpContext.t;
  _active_pdp_context : option Z;
  _mqtt_connected : bool
}.

(** What the driver does to the outside. *)
Inductive Event :=
  | Write (bytes : string)          (* uart.write *)
  | Sleep (seconds : Q)             (* time.sleep *)
  | Blink (on_time off_time : Z).   (* power_pin.blink(on, off, n=1) *)

Record World := mkWorld {
  in_waiting : string;    (* the UART input buffer *)
  trace : list Event
}.

Record St := mkSt { hat : Hat; world : World }.

(** [WaveshareNbiotHat.__init__] *)
Definition Hat_init : Hat := mkHat 9600 None None ∅ None true.

Definition St_init : St := mkSt Hat_init (mkWorld EmptyString []).

(** ** Exceptions and the method monad *)

(** The message keeps the fixed text of the source's message; a response
    list interpolated into it is left out. *)
Inductive Exc :=
  | ValueError (msg : string)
  | RuntimeError (msg : string)
  | SystemError (msg : string)
  | SyntaxError (msg : string)
  | FileNotFoundError (msg : string)
  | TypeError (msg : string)
  | AttributeError (msg : string)
  | IndexError (msg : string)
  | KeyError (key : Z)
  | ZeroDivisionError.

Inductive Result (A : Type) :=
  | Ok (a : A)
  | Raise (e : Exc).
Arguments Ok {A} a.
Arguments Raise {A} e.

Definition M (A : Type) : Type := St → Result A * St.

#[global] Instance M_ret : MRet M := λ A a s, (Ok a, s).

#[global] Instance M_bind : MBind M := λ A B f m s,
  match m s with
  | (Ok a, s') => f a s'
  | (Raise e, s') => (Raise e, s')
  end.

Definition raise {A} (e : Exc) : M A := λ s, (Raise e, s).

Definition raise_if (b : bool) (e : Exc) : M unit :=
  if b then raise e else mret tt.

(** The lookup [PdpAction.DEACTIVATE] on the class: the class body only
    annotates that name, so the class has no such attribute. *)
Definition PdpAction_DEACTIVATE : M PdpAction :=
  raise (AttributeError "DEACTIVATE").

Definition gets {A} (f : Hat → A) : M A := λ s, (Ok (f (hat s)), s).

Definition set_hat (f : Hat → Hat) : M unit :=
  λ s, (Ok tt, mkSt (f (hat s)) (world s)).

Definition with_ready (v : option bool) (h : Hat) : Hat :=
  mkHat (_baudrate h) v (_rf_enabled h) (_pdp_contexts h)
        (_active_pdp_context h) (_mqtt_connected h).

Definition with_pdp_contexts (v : gmap Z PdpContext.t) (h : Hat) : Hat :=
  mkHat (_baudrate h) (_ready h) (_rf_enabled h) v
        (_active_pdp_context h) (_mqtt_connected h).

Definition with_active_pdp_context (v : option Z) (h : Hat) : Hat :=
  mkHat (_baudrate h) (_ready h) (_rf_enabled h) (_pdp_contexts h)
        v (_mqtt_connected h).

Definition with_mqtt_connected (v : bool) (h : Hat) : Hat :=
  mkHat (_baudrate h) (_ready h) (_rf_enabled h) (_pdp_contexts h)
        (_active_pdp_context h) v.

(** An attribute assignment on the context object stored under [key]:
    the object is shared with the registry, so the registry sees it. *)
Definition update_context (key : Z) (f : PdpContext.t → PdpContext.t) : M unit :=
  set_hat (λ h, with_pdp_contexts (alter f key (_pdp_contexts h)) h).

Definition emit (e : Event) : M unit :=
  λ s, (Ok tt, mkSt (hat s)
                    (mkWorld (in_waiting (world s)) (trace (world s) ++ [e]))).

(** [uart.in_waiting], as the bytes themselves. *)
Definition uart_pending : M string := λ s, (Ok (in_waiting (world s)), s).

(** [uart.read(uart.in_waiting)] and [uart.reset_input_buffer()] *)
Definition uart_read_all : M string :=
  λ s, (Ok (in_waiting (world s)),
        mkSt (hat s) (mkWorld EmptyString (trace (world s)))).

Definition uart_write (bytes : string) : M unit := emit (Write bytes).

(** ** The driver *)

Section Driver.

(** The modem: the bytes delivered during the sleep that ends the trace. *)
Variable modem : list Event → string.

(** The local files: path to content. *)
Variable files : string → option string.

(** [time.sleep(seconds)]; a negative length is refused. *)
Definition sleep (seconds : Q) : M unit := λ s,
  if Qle_bool 0 seconds then
    let tr := trace (world s) ++ [Sleep seconds] in
    (Ok tt, mkSt (hat s) (mkWorld (in_waiting (world s) +:+ modem tr) tr))
  else (Raise (ValueError "sleep length must be non-negative"), s).

(** [sleep(math.ceil(a / b))] *)
Definition sleep_ceil (a b : Z) : M unit :=
  if b =? 0 then raise ZeroDivisionError
  else sleep (inject_Z (math_ceil_div a b)).

Definition power_on : M unit := emit (Blink 1 5).

Definition power_off : M unit := emit (Blink 2 5).

Definition at_command (command : string) (timeout : Q) : M (list string) :=
  _ ← uart_read_all;
  uart_write (command +:+ chr CR);;
  sleep timeout;;
  buf ← uart_read_all;
  mret (response_lines buf).

(** What [at_command] returns and the state it leaves, when the timeout
    is not negative: the trace grows by the command and the settle sleep,
    and the input buffer has been read empty. *)
Definition at_trace (command : string) (timeout : Q) (s : St) : list Event :=
  (trace (world s) ++ [Write (command +:+ chr CR)]) ++ [Sleep timeout].

Definition at_lines (command : string) (timeout : Q) (s : St) : list string :=
  response_lines (modem (at_trace command timeout s)).

Definition at_after (command : string) (timeout : Q) (s : St) : St :=
  mkSt (hat s) (mkWorld EmptyString (at_trace command timeout s)).

(** The loop of [initialize]: [attempt] runs from 0 while it is below
    [max_attempts] and no probe was answered; [remaining] is the number of
    attempts left. *)
Fixpoint initialize_loop (remaining : nat) : M bool :=
  match remaining with
  | O => mret false
  | S n =>
      res ← at_command "AT" 1;
      if line_in "OK" res then mret true
      else power_on;; initialize_loop n
  end.

Definition initialize (max_attempts : Z) : M bool :=
  responsive ← initialize_loop (Z.to_nat max_attempts);
  set_hat (with_ready (Some responsive));;
  mret responsive.

(** The [ready] property. *)
Definition ready : M (option bool) :=
  r ← gets _ready;
  match r with
  | None => initialize 3;; mret tt
  | Some _ => mret tt
  end;;
  gets _ready.

Definition disable_rf : M bool :=
  res ← at_command "AT+CFUN=0" (1 # 10);
  if negb (line_in "OK" res) then mret false
  else if negb (line_in "+CPIN: NOT READY" res) then mret false
  else mret true.

Definition enable_rf : M bool :=
  res ← at_command "AT+CFUN=1" (1 # 10);
  if negb (line_in "OK" res) then mret false
  else if negb (line_in "+CPIN: READY" res) then mret false
  else mret true.

Definition pdp_context_define (id : Z) (apn : string)
    (data_service : DataService) : M unit :=
  raise_if (negb ((0 <=? id) && (id <? 4)))
           (ValueError "PDP context ID must be 0-3");;
  raise_if (str_falsy apn) (ValueError "Invalid apn name");;
  raise_if (negb (isinstance_DataService data_service))
           (ValueError "Invalid data_service");;
  ok ← disable_rf;
  raise_if (negb ok) (RuntimeError "Could not disable RF");;
  res ← at_command ("AT+CGDCONT=" +:+ str_of_Z id +:+ ","
                    +:+ quoted (DataService_str data_service) +:+ ","
                    +:+ quoted apn) (1 # 10);
  raise_if (negb (line_in "OK" res)) (ValueError "Error: ");;
  ok ← enable_rf;
  raise_if (negb ok) (RuntimeError "Could not enable RF");;
  (if DataService_is_ip data_service then
     res ← at_command "AT+GCATT?" (1 # 10);
     raise_if (negb (line_in "+CGATT: 1" res))
              (SystemError "Packet service not attached")
   else mret tt);;
  res ← at_command "AT+GCNAPN" (1 # 10);
  raise_if (negb (line_in ("+CGNAPN: " +:+ str_of_Z id +:+ "," +:+ quoted apn) res))
           (ValueError "Error: ").

(** The command text [pdp_context_configure] builds. *)
Definition config_base (id : Z) (data_service : DataService) (apn : string)
  : string :=
  "AT+CNCFG=" +:+ str_of_Z id +:+ "," +:+ quoted (DataService_str data_service)
  +:+ "," +:+ quoted apn.

Definition config_credentials (username password : string) : string :=
  if str_falsy username then EmptyString
  else "," +:+ username +:+
       (if str_falsy password then EmptyString else "," +:+ password).

Definition config_auth (username password : string) (auth : option AuthType)
  : string :=
  match auth with
  | None => EmptyString
  | Some a =>
      (if str_falsy username && str_falsy password then ",," else EmptyString)
      +:+ "," +:+ str_of_Z (AuthType_value a)
  end.

Definition config_command (id : Z) (data_service : DataService) (apn : string)
    (username password : string) (auth : option AuthType) : string :=
  config_base id data_service apn
  +:+ config_credentials username password
  +:+ config_auth username password auth.

Definition pdp_context_configure (id : Z) (apn : option string)
    (data_service : option DataService) (username password : string)
    (auth : option AuthType) : M unit :=
  contexts ← gets _pdp_contexts;
  match contexts !! id with
  | None =>
      raise (ValueError ("PDP context ID " +:+ str_of_Z id +:+ " not defined"))
  | Some pdp_context =>
      let apn := match apn with
                 | Some a => if str_falsy a then PdpContext.apn pdp_context else a
                 | None => PdpContext.apn pdp_context
                 end in
      let data_service := default (PdpContext.data_service pdp_context)
                                  data_service in
      res ← at_command
              (config_command id data_service apn username password auth)
              (1 # 10);
      raise_if (negb (line_in "OK" res)) (ValueError "Error: ");;
      update_context id (PdpContext.set_configured username password auth)
  end.

(** The start of the table row of context [pdp_context_id]. *)
Definition cnact_row_prefix (pdp_context_id : Z) : string :=
  "+CNACT: " +:+ str_of_Z pdp_context_id.

(** The [for line in res] loop of [pdp_context_activate]. *)
Fixpoint scan_cnact (pdp_context_id : Z) (res : list string) : M unit :=
  match res with
  | [] => mret tt
  | line :: rest =>
      if startswith line (cnact_row_prefix pdp_context_id) then
        match split COMMA line !! 2%nat with
        | None => raise (IndexError "list index out of range")
        | Some field =>
            update_context pdp_context_id
              (PdpContext.set_ip_address (Some (remove_char DQUOTE field)));;
            set_hat (with_active_pdp_context (Some pdp_context_id))
        end
      else scan_cnact pdp_context_id rest
  end.

(** The activation command. *)
Definition cnact_command (pdp_context_id : Z) (action : PdpAction) : string :=
  "AT+CNACT=" +:+ str_of_Z pdp_context_id +:+ ","
  +:+ str_of_Z (PdpAction_value action).

Definition pdp_context_activate (pdp_context_id : Z) (action : PdpAction)
  : M unit :=
  contexts ← gets _pdp_contexts;
  match contexts !! pdp_context_id with
  | None =>
      raise (ValueError ("PDP context ID " +:+ str_of_Z pdp_context_id
                         +:+ " not defined"))
  | Some pdp_context =>
      raise_if (negb (PdpContext.configured pdp_context))
               (ValueError ("PDP context ID " +:+ str_of_Z pdp_context_id
                            +:+ " not configured"));;
      at_command (cnact_command pdp_context_id action) (1 # 10);;
      if PdpContext.is_ip pdp_context then
        deactivate ← PdpAction_DEACTIVATE;
        if PdpAction_eqb action deactivate then
          update_context pdp_context_id (PdpContext.set_ip_address None);;
          set_hat (with_active_pdp_context None)
        else
          res ← at_command "AT+CNACT?" (1 # 10);
          scan_cnact pdp_context_id res
      else mret tt
  end.

(** [os.path.isfile], [os.path.getsize] and [open(..., 'rb').read()], on
    a file system whose only entries are regular files. *)
Definition isfile (path : string) : bool := bool_decide (is_Some (files path)).

Definition read_file (path : string) : M string :=
  match files path with
  | Some content => mret content
  | None => raise (FileNotFoundError "No such file or directory")
  end.

Definition getsize (path : string) : M Z :=
  content ← read_file path;
  mret (Z.of_nat (String.length content)).

(** The command that opens the write session for [size] bytes. *)
Definition cfswfile_command (flashname : string) (size : Z) : string :=
  "AT+CFSWFILE=3," +:+ quoted flashname +:+ ",0," +:+ str_of_Z size
  +:+ ",1000".

Definition _put_file_in_flash (filename flashname : string) : M unit :=
  res ← at_command "AT+CFSINIT" (1 # 10);
  raise_if (negb (line_in "OK" res))
           (SyntaxError "Could not initialize filesystem: ");;
  size ← getsize filename;
  res ← at_command (cfswfile_command flashname size) (1 # 10);
  raise_if (negb (line_in "DOWNLOAD" res))
           (SystemError "Error opening download: ");;
  content ← read_file filename;
  uart_write content;;
  baudrate ← gets _baudrate;
  sleep_ceil (size * 8) baudrate;;
  pending ← uart_pending;
  (if str_falsy pending then mret tt
   else
     buf ← uart_read_all;
     raise_if (negb (str_contains "OK" (strip buf)))
              (SystemError "Error downloading file: "));;
  res ← at_command "AT+CFSTERM" (1 # 10);
  raise_if (negb (line_in "OK" res))
           (SystemError "Failed to close file buffer: ").

(** [not ctx.ip_address]: no address, or the empty one. *)
Definition ip_falsy (ip : option string) : bool :=
  match ip with
  | None => true
  | Some a => str_falsy a
  end.

(** The guard [if not self._active_pdp_context: raise ...], which also
    refuses context 0, then [self._pdp_contexts[self._active_pdp_context]]. *)
Definition active_context (no_context : Exc) : M PdpContext.t :=
  active ← gets _active_pdp_context;
  match active with
  | None => raise no_context
  | Some key =>
      raise_if (key =? 0) no_context;;
      contexts ← gets _pdp_contexts;
      match contexts !! key with
      | Some c => mret c
      | None => raise (KeyError key)
      end
  end.

Definition pdp_context_configure_ssl (ca_file cert_file key_file : string)
  : M unit :=
  raise_if (negb (isfile ca_file))
           (FileNotFoundError (ca_file +:+ " root CA not found"));;
  raise_if (negb (isfile cert_file))
           (FileNotFoundError (cert_file +:+ " certificate not found"));;
  raise_if (negb (isfile key_file))
           (FileNotFoundError (key_file +:+ " key not found"));;
  c ← active_context (SystemError "No active PDP context");
  raise_if (ip_falsy (PdpContext.ip_address c))
           (SystemError "No valid IP address");;
  res ← at_command "AT+CCLK?" (1 # 10);
  raise_if (negb (existsb (str_contains ("+CCLK: " +:+ chr DQUOTE)) res))
           (SystemError "Time not synchronized: ");;
  _put_file_in_flash ca_file "ca.crt";;
  _put_file_in_flash cert_file "client.crt";;
  _put_file_in_flash key_file "client.key";;
  res ← at_command ("AT+CSSLCFG=" +:+ quoted "CONVERT" +:+ ",2,"
                    +:+ quoted "ca.crt") (1 # 10);
  raise_if (negb (line_in "OK" res))
           (SystemError "Failed to configure CA cert: ");;
  res ← at_command ("AT+CSSLCFG=" +:+ quoted "CONVERT" +:+ ",1,"
                    +:+ quoted "client.crt" +:+ "," +:+ quoted "client.key")
                   (1 # 10);
  raise_if (negb (line_in "OK" res))
           (SystemError "Failed to configure client/key: ").

Definition mqtt_connect (server_url : string) (server_port : Z)
    (client_id : string) (keepalive : Z) (ssl : bool) : M unit :=
  c ← active_context (ValueError "No valid PDP context");
  raise_if (ip_falsy (PdpContext.ip_address c))
           (ValueError "No valid IP address in context");;
  res ← at_command ("AT+SMCONF=" +:+ quoted "URL" +:+ "," +:+ server_url
                    +:+ "," +:+ str_of_Z server_port) (1 # 10);
  raise_if (negb (line_in "OK" res))
           (SystemError "Failed to configure MQTT server: ");;
  res ← at_command ("AT+SMCONF=" +:+ quoted "KEEPTIME" +:+ ","
                    +:+ str_of_Z keepalive) (1 # 10);
  raise_if (negb (line_in "OK" res))
           (SystemError "Failed to configure MQTT keepalive: ");;
  res ← at_command ("AT+SMCONF=" +:+ quoted "CLEANSS" +:+ ",1") (1 # 10);
  raise_if (negb (line_in "OK" res))
           (SystemError "Failed to configure MQTT clean session: ");;
  res ← at_command ("AT+SMCONF=" +:+ quoted "CLIENTID" +:+ "," +:+ client_id)
                   (1 # 10);
  raise_if (negb (line_in "OK" res))
           (SystemError "Failed to configure MQTT client ID: ");;
  (if ssl then
     (* pdp_context_configure_ssl() is called without its three paths *)
     raise (TypeError "pdp_context_configure_ssl() missing 3 required positional arguments")
   else mret tt);;
  res ← at_command "AT+SMCONN" (1 # 10);
  raise_if (negb (line_in "OK" res))
           (SystemError "Failed to connect to MQTT broker: ");;
  set_hat (with_mqtt_connected true).

Definition mqtt_disconnect : M unit :=
  res ← at_command "AT+SMDISC" (1 # 10);
  raise_if (negb (line_in "OK" res)) (SystemError "Failed to disconnect MQTT: ");;
  set_hat (with_mqtt_connected false).

Definition mqtt_susbscribe (topic : string) (qos : Z) : M unit :=
  res ← at_command ("AT+SMSUB=" +:+ quoted topic +:+ "," +:+ str_of_Z qos)
                   (1 # 10);
  raise_if (negb (line_in "OK" res))
           (SystemError ("Failed to subscribe to " +:+ topic +:+ ": ")).

Definition mqtt_unsubscribe (topic : string) : M unit :=
  res ← at_command ("AT+SMUNSUB=" +:+ quoted topic) (1 # 10);
  raise_if (negb (line_in "OK" res))
           (SystemError ("Failed to unsubscribe from " +:+ topic +:+ ": ")).

(** The publish-intent command. *)
Definition smpub_command (topic payload : string) (qos : Z) (retain : bool)
  : string :=
  let retain := if retain then 1 else 0 in
  let len := Z.of_nat (String.length payload) in
  "AT+SMPUB=" +:+ quoted topic +:+ "," +:+ str_of_Z len
  +:+ "," +:+ str_of_Z qos +:+ "," +:+ str_of_Z retain.

Definition mqtt_publish (topic payload : string) (qos : Z) (retain : bool)
  : M unit :=
  let len := Z.of_nat (String.length payload) in
  res ← at_command (smpub_command topic payload qos retain) (1 # 10);
  raise_if (negb (line_in ">" res)) (SystemError "No prompt for MQTT payload: ");;
  uart_write payload;;
  baudrate ← gets _baudrate;
  sleep_ceil len baudrate;;
  pending ← uart_pending;
  if str_falsy pending then mret tt
  else
    (* the bytes read have no encode method *)
    uart_read_all;;
    raise (AttributeError "'bytes' object has no attribute 'encode'").

(** The operations of the controller, and the state each one leaves. *)
Inductive Op :=
  | OpPowerOn
  | OpPowerOff
  | OpInitialize (max_attempts : Z)
  | OpReady
  | OpAtCommand (command : string) (timeout : Q)
  | OpDisableRf
  | OpEnableRf
  | OpDefine (id : Z) (apn : string) (data_service : DataService)
  | OpConfigure (id : Z) (apn : option string)
                (data_service : option DataService)
                (username password : string) (auth : option AuthType)
  | OpActivate (pdp_context_id : Z) (action : PdpAction)
  | OpPutFile (filename flashname : string)
  | OpConfigureSsl (ca_file cert_file key_file : string)
  | OpMqttConnect (server_url : string) (server_port : Z) (client_id : string)
                  (keepalive : Z) (ssl : bool)
  | OpMqttDisconnect
  | OpMqttSubscribe (topic : string) (qos : Z)
  | OpMqttUnsubscribe (topic : string)
  | OpMqttPublish (topic payload : string) (qos : Z) (retain : bool).

Definition exec (op : Op) (s : St) : St :=
  match op with
  | OpPowerOn => snd (power_on s)
  | OpPowerOff => snd (power_off s)
  | OpInitialize n => snd (initialize n s)
  | OpReady => snd (ready s)
  | OpAtCommand c t => snd (at_command c t s)
  | OpDisableRf => snd (disable_rf s)
  | OpEnableRf => snd (enable_rf s)
  | OpDefine id apn ds => snd (pdp_context_define id apn ds s)
  | OpConfigure id apn ds u p a => snd (pdp_context_configure id apn ds u p a s)
  | OpActivate id action => snd (pdp_context_activate id action s)
  | OpPutFile f n => snd (_put_file_in_flash f n s)
  | OpConfigureSsl ca cert key => snd (pdp_context_configure_ssl ca cert key s)
  | OpMqttConnect url port cid ka ssl => snd (mqtt_connect url port cid ka ssl s)
  | OpMqttDisconnect => snd (mqtt_disconnect s)
  | OpMqttSubscribe t q => snd (mqtt_susbscribe t q s)
  | OpMqttUnsubscribe t => snd (mqtt_unsubscribe t s)
  | OpMqttPublish t p q r => snd (mqtt_publish t p q r s)
  end.

(** A sequence of operations, first to last. *)
Definition run (ops : list Op) (s : St) : St :=
  foldl (λ st op, exec op st) s ops.

End Driver.

(** ** Fixtures: modems and controllers for the worked scenarios *)

(** The last command written, without its carriage return. *)
Fixpoint last_write (tr : list Event) : option string :=
  match tr with
  | [] => None
  | e :: rest =>
      match last_write rest with
      | Some w => Some w
      | None => match e with Write w => Some w | _ => None end
      end
  end.

Definition reply (lines : list string) : string :=
  String.concat EmptyString ((λ l, crlf +:+ l +:+ crlf) <$> lines).

(** A modem that never answers. *)
Definition silent_modem (tr : list Event) : string := EmptyString.

(** A modem that confirms every command of the bring-up of context [id]
    with apn [apn] and reports [row] in its context table. *)
Definition friendly_modem (id : Z) (apn row : string) (tr : list Event) : string :=
  match last_write tr with
  | None => EmptyString
  | Some w =>
      if String.eqb w ("AT+CFUN=0" +:+ chr CR) then reply ["+CPIN: NOT READY"; "OK"]
      else if String.eqb w ("AT+CFUN=1" +:+ chr CR) then reply ["OK"; "+CPIN: READY"]
      else if String.eqb w ("AT+GCATT?" +:+ chr CR) then reply ["+CGATT: 1"; "OK"]
      else if String.eqb w ("AT+GCNAPN" +:+ chr CR)
           then reply ["+CGNAPN: " +:+ str_of_Z id +:+ "," +:+ quoted apn; "OK"]
      else if String.eqb w ("AT+CNACT?" +:+ chr CR) then reply [row; "OK"]
      else if String.eqb w ("AT+SMCONN" +:+ chr CR) then reply ["ERROR"]
      else if String.prefix "AT+SMPUB=" w then reply [">"]
      else if String.prefix "AT+CFSWFILE=" w then reply ["DOWNLOAD"]
      else reply ["OK"]
  end.

(** The scenario of the round trip: context 0, apn ciot, one table row. *)
Definition round_trip_row : string :=
  "+CNACT: 0,1," +:+ quoted "10.0.0.5".

Definition round_trip_modem : list Event → string :=
  friendly_modem 0 "ciot" round_trip_row.

(** A modem whose context table only lists context 1. *)
Definition row_1_modem : list Event → string :=
  friendly_modem 0 "ciot" ("+CNACT: 1,1," +:+ quoted "10.0.0.6").

Definition no_files (path : string) : option string := None.

Definition one_file (path : string) : option string :=
  if String.eqb path "ca.pem" then Some "-----BEGIN CERTIFICATE-----" else None.

(** No operation of the driver stores a context: the registries below are
    as a caller fills the dict that the [pdp_contexts] property hands out.
    A context as [pdp_context_configure] leaves it, and the same holding an
    address. *)
Definition configured_context (id : Z) (apn : string) : PdpContext.t :=
  PdpContext.set_configured EmptyString EmptyString None
    (PdpContext.init id apn IP_V4).

Definition addressed_context (id : Z) (apn address : string) : PdpContext.t :=
  PdpContext.set_ip_address (Some address) (configured_context id apn).

(** Contexts 0 and 1 configured, context 0 active with its address. *)
Definition context_0_active : St :=
  mkSt (mkHat 9600 (Some true) None
          (<[0 := addressed_context 0 "ciot" "10.0.0.5"]>
             (<[1 := configured_context 1 "iot"]> ∅))
          (Some 0) true)
       (mkWorld EmptyString []).

(** Contexts 0 and 1 configured, context 1 active with its address. *)
Definition context_1_active : St :=
  mkSt (mkHat 9600 (Some true) None
          (<[0 := configured_context 0 "ciot"]>
             (<[1 := addressed_context 1 "iot" "10.0.0.6"]> ∅))
          (Some 1) true)
       (mkWorld EmptyString []).

(** A modem that answers OK to everything. *)
Definition agreeable_modem (tr : list Event) : string := reply ["OK"].

(** Context 2 configured for a non-IP service. *)
Definition context_2_nonip : St :=
  mkSt (mkHat 9600 (Some true) None
          (<[2 := PdpContext.set_configured EmptyString EmptyString None
                    (PdpContext.init 2 "nidd" NONIP)]> ∅)
          None true)
       (mkWorld EmptyString []).

(** Context 0 registered for IPv4 and not configured yet. *)
Definition context_0_registered : St :=
  mkSt (mkHat 9600 (Some true) None
          (<[0 := PdpContext.init 0 "ciot" IP_V4]> ∅) None true)
       (mkWorld EmptyString []).

(** A file system where every path is a small file. *)
Definition three_files (path : string) : option string := Some "pem".

(** ** Vocabulary of the properties *)

(** [m] moves the controller along [R], whatever it returns or raises. *)
Definition keeps (R : Hat → Hat → Prop) {A} (m : M A) : Prop :=
  ∀ s, R (hat s) (hat (snd (m s))).

(** The registry invariant as the data model words it: an address is set
    exactly on the active context, and only when it is IP-capable. *)
Definition address_iff_active (h : Hat) : Prop :=
  ∀ id c, _pdp_contexts h !! id = Some c →
    (PdpContext.ip_address c ≠ None
     ↔ _active_pdp_context h = Some id ∧ PdpContext.is_ip c = true).

(** One liveness probe of [initialize], and a probe that went unanswered
    with the power pulse that follows it. *)
Definition probe : list Event := [Write ("AT" +:+ chr CR); Sleep 1].

Definition failed_probe : list Event := probe ++ [Blink 1 5].

(** Whether the probe written after [i] unanswered probes, on a trace
    that was [tr] when [initialize] was called, is answered with OK. *)
Definition probe_answered (modem : list Event → string) (tr : list Event)
    (i : nat) : bool :=
  line_in "OK"
    (response_lines (modem (tr ++ concat (replicate i failed_probe) ++ probe))).

(** One command with its settle sleep, as it shows in the trace. *)
Definition exchange (command : string) : list Event :=
  [Write (command +:+ chr CR); Sleep (1 # 10)].

(** The apn and the data service [pdp_context_configure] puts in its
    command for the context [c]. *)
Definition configure_apn (apn : option string) (c : PdpContext.t) : string :=
  match apn with
  | Some a => if str_falsy a then PdpContext.apn c else a
  | None => PdpContext.apn c
  end.

Definition configure_data_service (data_service : option DataService)
    (c : PdpContext.t) : DataService :=
  default (PdpContext.data_service c) data_service.

(** Which operations assign which attribute of the controller. *)
Definition writes_ready (op : Op) : bool :=
  match op with
  | OpInitialize _ | OpReady => true
  | _ => false
  end.

Definition writes_registry (op : Op) : bool :=
  match op with
  | OpConfigure _ _ _ _ _ _ | OpActivate _ _ => true
  | _ => false
  end.

Definition writes_session (op : Op) : bool :=
  match op with
  | OpMqttConnect _ _ _ _ _ | OpMqttDisconnect => true
  | _ => false
  end.

(** The registry of [h'] has the keys of the registry of [h], each context
    with the id, apn and data service it had, and still configured if it
    was. *)
Definition same_identity (h h' : Hat) : Prop :=
  ∀ k, match _pdp_contexts h !! k, _pdp_contexts h' !! k with
       | Some c, Some c' =>
           PdpContext.id c' = PdpContext.id c
           ∧ PdpContext.apn c' = PdpContext.apn c
           ∧ PdpContext.data_service c' = PdpContext.data_service c
           ∧ (PdpContext.configured c = true → PdpContext.configured c' = true)
       | None, None => True
       | _, _ => False
       end.

(** A session configuration command. *)
Definition smconf (key value : string) : string :=
  "AT+SMCONF=" +:+ quoted key +:+ "," +:+ value.

(** ** Running the monad *)

Section Laws.

Variable modem : list Event → string.
Variable files : string → option string.

Lemma run_bind {A B} (m : M A) (f : A → M B) (s : St) :
  (m ≫= f) s = match m s with
               | (Ok a, s') => f a s'
               | (Raise e, s') => (Raise e, s')
               end.
Proof. reflexivity. Qed.

Lemma run_ret {A B} (a : A) (f : A → M B) (s : St) : (mret a ≫= f) s = f a s.
Proof. reflexivity. Qed.

Lemma run_raise {A B} (e : Exc) (f : A → M B) (s : St) :
  (raise e ≫= f) s = (Raise e, s).
Proof. reflexivity. Qed.

Lemma run_raise_if {B} (b : bool) (e : Exc) (f : unit → M B) (s : St) :
  (raise_if b e ≫= f) s = if b then (Raise e, s) else f tt s.
Proof. destruct b; reflexivity. Qed.

Lemma run_gets {A B} (g : Hat → A) (f : A → M B) (s : St) :
  (gets g ≫= f) s = f (g (hat s)) s.
Proof. reflexivity. Qed.

Lemma run_assoc {A B C} (m : M A) (f : A → M B) (g : B → M C) (s : St) :
  ((m ≫= f) ≫= g) s = (m ≫= λ a, f a ≫= g) s.
Proof. rewrite !run_bind. destruct (m s) as [[a | e] s']; reflexivity. Qed.

Lemma run_emit {B} (e : Event) (f : unit → M B) (s : St) :
  (emit e ≫= f) s
  = f tt (mkSt (hat s) (mkWorld (in_waiting (world s)) (trace (world s) ++ [e]))).
Proof. reflexivity. Qed.

Lemma run_uart_pending {B} (f : string → M B) (s : St) :
  (uart_pending ≫= f) s = f (in_waiting (world s)) s.
Proof. reflexivity. Qed.

Lemma run_uart_read_all {B} (f : string → M B) (s : St) :
  (uart_read_all ≫= f) s
  = f (in_waiting (world s)) (mkSt (hat s) (mkWorld EmptyString (trace (world s)))).
Proof. reflexivity. Qed.

Lemma run_set_hat {B} (g : Hat → Hat) (f : unit → M B) (s : St) :
  (set_hat g ≫= f) s = f tt (mkSt (g (hat s)) (world s)).
Proof. reflexivity. Qed.

Lemma at_command_run (command : string) (timeout : Q) (s : St) :
  Qle_bool 0 timeout = true →
  at_command modem command timeout s
  = (Ok (at_lines modem command timeout s), at_after command timeout s).
Proof.
  intros Ht. unfold at_command, at_lines, at_after, at_trace.
  rewrite !run_bind. cbn. unfold sleep. cbn. rewrite Ht. reflexivity.
Qed.

Lemma trace_at_after (command : string) (timeout : Q) (s : St) :
  trace (world (at_after command timeout s))
  = trace (world s) ++ [Write (command +:+ chr CR); Sleep timeout].
Proof. cbn. unfold at_trace. now rewrite <- app_assoc. Qed.

Lemma hat_at_after (command : string) (timeout : Q) (s : St) :
  hat (at_after command timeout s) = hat s.
Proof. reflexivity. Qed.

Lemma run_at_command {B} (command : string) (timeout : Q)
    (f : list string → M B) (s : St) :
  Qle_bool 0 timeout = true →
  (at_command modem command timeout ≫= f) s
  = f (at_lines modem command timeout s) (at_after command timeout s).
Proof. intros Ht. rewrite run_bind, at_command_run by exact Ht. reflexivity. Qed.

(** C6: [pdp_context_define] with an id outside 0..3, or with an empty
    apn, raises ValueError and leaves the whole state, the trace of written
    commands included, as it found it: nothing was sent. *)
Theorem define_rejects_before_io (id : Z) (apn : string) (ds : DataService)
    (s : St) :
  (id < 0 ∨ 3 < id) ∨ apn = EmptyString →
  ∃ msg, pdp_context_define modem id apn ds s = (Raise (ValueError msg), s).
Proof.
  intros Hbad. unfold pdp_context_define. rewrite !run_raise_if.
  destruct (negb ((0 <=? id) && (id <? 4))) eqn:Hid; [eauto|].
  destruct Hbad as [Hrange | ->]; [lia | ]. cbn. eauto.
Qed.

(** *** Frame rules *)

Section Frame.

Variable R : Hat → Hat → Prop.
Hypothesis R_refl : ∀ h, R h h.
Hypothesis R_trans : ∀ h1 h2 h3, R h1 h2 → R h2 h3 → R h1 h3.

Lemma keeps_ret {A} (a : A) : keeps R (mret a).
Proof. intros s. apply R_refl. Qed.

Lemma keeps_raise {A} (e : Exc) : keeps R (@raise A e).
Proof. intros s. apply R_refl. Qed.

Lemma keeps_raise_if (b : bool) (e : Exc) : keeps R (raise_if b e).
Proof. intros s. destruct b; apply R_refl. Qed.

Lemma keeps_gets {A} (g : Hat → A) : keeps R (gets g).
Proof. intros s. apply R_refl. Qed.

Lemma keeps_emit (e : Event) : keeps R (emit e).
Proof. intros s. apply R_refl. Qed.

Lemma keeps_uart_pending : keeps R uart_pending.
Proof. intros s. apply R_refl. Qed.

Lemma keeps_uart_read_all : keeps R uart_read_all.
Proof. intros s. apply R_refl. Qed.

Lemma keeps_sleep (d : Q) : keeps R (sleep modem d).
Proof. intros s. unfold sleep. destruct (Qle_bool 0 d); apply R_refl. Qed.

Lemma keeps_set_hat (f : Hat → Hat) : (∀ h, R h (f h)) → keeps R (set_hat f).
Proof. intros Hf s. apply Hf. Qed.

Lemma keeps_bind {A B} (m : M A) (f : A → M B) :
  keeps R m → (∀ a, keeps R (f a)) → keeps R (m ≫= f).
Proof.
  intros Hm Hf s. rewrite run_bind. specialize (Hm s).
  destruct (m s) as [[a | e] s']; cbn in *; [|exact Hm].
  eapply R_trans; [exact Hm | apply Hf].
Qed.

Ltac keeps_step :=
  first
    [ apply keeps_ret | apply keeps_raise | apply keeps_raise_if
    | apply keeps_gets | apply keeps_emit | apply keeps_uart_pending
    | apply keeps_uart_read_all | apply keeps_sleep
    | apply keeps_bind; [ | intros ? ]
    | match goal with
      | |- keeps _ (if ?b then _ else _) => destruct b
      | |- keeps _ (match ?x with _ => _ end) => destruct x
      end ].

Ltac keeps_auto := repeat keeps_step; eauto.

Lemma keeps_at_command (command : string) (timeout : Q) :
  keeps R (at_command modem command timeout).
Proof. unfold at_command, uart_write. keeps_auto. Qed.

Lemma keeps_power_on : keeps R power_on.
Proof. apply keeps_emit. Qed.

Lemma keeps_power_off : keeps R power_off.
Proof. apply keeps_emit. Qed.

Lemma keeps_initialize_loop (n : nat) : keeps R (initialize_loop modem n).
Proof.
  induction n as [|n IH]; cbn [initialize_loop]; [apply keeps_ret|].
  apply keeps_bind; [apply keeps_at_command|]. intros res.
  destruct (line_in "OK" res); [apply keeps_ret|].
  apply keeps_bind; [apply keeps_power_on | intros _; exact IH].
Qed.

Lemma keeps_initialize (max_attempts : Z) :
  (∀ v h, R h (with_ready v h)) → keeps R (initialize modem max_attempts).
Proof.
  intros Hr. unfold initialize.
  apply keeps_bind; [apply keeps_initialize_loop|]. intros b.
  apply keeps_bind; [apply keeps_set_hat, Hr | intros _; apply keeps_ret].
Qed.

Lemma keeps_ready :
  (∀ v h, R h (with_ready v h)) → keeps R (ready modem).
Proof.
  intros Hr. unfold ready.
  apply keeps_bind; [apply keeps_gets|]. intros [b|].
  - keeps_auto.
  - apply keeps_bind; [|intros _; apply keeps_gets].
    apply keeps_bind; [apply keeps_initialize, Hr | intros _; apply keeps_ret].
Qed.

Lemma keeps_disable_rf : keeps R (disable_rf modem).
Proof.
  unfold disable_rf. apply keeps_bind; [apply keeps_at_command|].
  intros res. keeps_auto.
Qed.

Lemma keeps_enable_rf : keeps R (enable_rf modem).
Proof.
  unfold enable_rf. apply keeps_bind; [apply keeps_at_command|].
  intros res. keeps_auto.
Qed.

Ltac keeps_calls :=
  repeat first
    [ apply keeps_at_command | apply keeps_disable_rf | apply keeps_enable_rf
    | keeps_step ].

Lemma keeps_pdp_context_define (id : Z) (apn : string) (ds : DataService) :
  keeps R (pdp_context_define modem id apn ds).
Proof. unfold pdp_context_define. keeps_calls. Qed.

Lemma keeps_update_context (key : Z) (f : PdpContext.t → PdpContext.t) :
  (∀ g h, R h (with_pdp_contexts g h)) → keeps R (update_context key f).
Proof. intros Hg. apply keeps_set_hat. intros h. apply Hg. Qed.

Lemma keeps_pdp_context_configure (id : Z) (apn : option string)
    (ds : option DataService) (u pw : string) (a : option AuthType) :
  (∀ h, R h (with_pdp_contexts
               (alter (PdpContext.set_configured u pw a) id (_pdp_contexts h)) h)) →
  keeps R (pdp_context_configure modem id apn ds u pw a).
Proof.
  intros Hg. unfold pdp_context_configure.
  apply keeps_bind; [apply keeps_gets|]. intros contexts.
  destruct (contexts !! id); [|apply keeps_raise].
  apply keeps_bind; [apply keeps_at_command|]. intros res.
  apply keeps_bind; [apply keeps_raise_if|]. intros _.
  apply keeps_set_hat. exact Hg.
Qed.

Lemma keeps_scan_cnact (id : Z) (res : list string) :
  (∀ g h, R h (with_pdp_contexts g h)) →
  (∀ v h, R h (with_active_pdp_context v h)) →
  keeps R (scan_cnact id res).
Proof.
  intros Hg Ha. induction res as [|line rest IH]; cbn [scan_cnact].
  - apply keeps_ret.
  - destruct (startswith _ _); [|exact IH].
    destruct (split COMMA line !! 2%nat); [|apply keeps_raise].
    apply keeps_bind; [apply keeps_update_context, Hg|].
    intros _. apply keeps_set_hat. intros h. apply Ha.
Qed.

Lemma keeps_pdp_context_activate (id : Z) (action : PdpAction) :
  (∀ g h, R h (with_pdp_contexts g h)) →
  (∀ v h, R h (with_active_pdp_context v h)) →
  keeps R (pdp_context_activate modem id action).
Proof.
  intros Hg Ha. unfold pdp_context_activate.
  apply keeps_bind; [apply keeps_gets|]. intros contexts.
  destruct (contexts !! id) as [c|]; [|apply keeps_raise].
  apply keeps_bind; [apply keeps_raise_if|]. intros _.
  apply keeps_bind; [apply keeps_at_command|]. intros _.
  destruct (PdpContext.is_ip c); [|apply keeps_ret].
  apply keeps_bind; [apply keeps_raise|]. intros deactivate.
  destruct (PdpAction_eqb action deactivate).
  - apply keeps_bind; [apply keeps_update_context, Hg|].
    intros _. apply keeps_set_hat. intros h. apply Ha.
  - apply keeps_bind; [apply keeps_at_command|]. intros res.
    apply keeps_scan_cnact; assumption.
Qed.

Lemma keeps_read_file (path : string) : keeps R (read_file files path).
Proof. unfold read_file. keeps_auto. Qed.

Lemma keeps_getsize (path : string) : keeps R (getsize files path).
Proof.
  unfold getsize. apply keeps_bind; [apply keeps_read_file|].
  intros ?. apply keeps_ret.
Qed.

Lemma keeps_sleep_ceil (a b : Z) : keeps R (sleep_ceil modem a b).
Proof. unfold sleep_ceil. keeps_auto. Qed.

Lemma keeps_put_file_in_flash (filename flashname : string) :
  keeps R (_put_file_in_flash modem files filename flashname).
Proof.
  unfold _put_file_in_flash, uart_write.
  repeat first
    [ apply keeps_at_command | apply keeps_getsize | apply keeps_read_file
    | apply keeps_sleep_ceil | keeps_step ].
Qed.

Lemma keeps_active_context (e : Exc) : keeps R (active_context e).
Proof. unfold active_context. keeps_auto. Qed.

Lemma keeps_pdp_context_configure_ssl (ca cert key : string) :
  keeps R (pdp_context_configure_ssl modem files ca cert key).
Proof.
  unfold pdp_context_configure_ssl.
  repeat first
    [ apply keeps_at_command | apply keeps_put_file_in_flash
    | apply keeps_active_context | keeps_step ].
Qed.

Lemma keeps_mqtt_connect (url : string) (port : Z) (cid : string) (ka : Z)
    (ssl : bool) :
  (∀ h, R h (with_mqtt_connected true h)) →
  keeps R (mqtt_connect modem url port cid ka ssl).
Proof.
  intros Hc. unfold mqtt_connect.
  repeat first
    [ apply keeps_at_command | apply keeps_active_context
    | apply keeps_set_hat, Hc | keeps_step ].
Qed.

Lemma keeps_mqtt_disconnect :
  (∀ h, R h (with_mqtt_connected false h)) → keeps R (mqtt_disconnect modem).
Proof.
  intros Hc. unfold mqtt_disconnect.
  repeat first
    [ apply keeps_at_command | apply keeps_set_hat, Hc | keeps_step ].
Qed.

Lemma keeps_mqtt_susbscribe (topic : string) (qos : Z) :
  keeps R (mqtt_susbscribe modem topic qos).
Proof. unfold mqtt_susbscribe. keeps_calls. Qed.

Lemma keeps_mqtt_unsubscribe (topic : string) :
  keeps R (mqtt_unsubscribe modem topic).
Proof. unfold mqtt_unsubscribe. keeps_calls. Qed.

Lemma keeps_mqtt_publish (topic payload : string) (qos : Z) (retain : bool) :
  keeps R (mqtt_publish modem topic payload qos retain).
Proof.
  unfold mqtt_publish, uart_write. cbv zeta.
  repeat first
    [ apply keeps_at_command | apply keeps_sleep_ceil | keeps_step ].
Qed.

Lemma keeps_scan_cnact_address (id : Z) (res : list string) :
  (∀ v k h, R h (with_pdp_contexts
                   (alter (PdpContext.set_ip_address v) k (_pdp_contexts h)) h)) →
  (∀ v h, R h (with_active_pdp_context v h)) →
  keeps R (scan_cnact id res).
Proof.
  intros Hg Ha. induction res as [|line rest IH]; cbn [scan_cnact].
  - apply keeps_ret.
  - destruct (startswith _ _); [|exact IH].
    destruct (split COMMA line !! 2%nat); [|apply keeps_raise].
    apply keeps_bind; [apply keeps_set_hat; intros h; apply Hg|].
    intros _. apply keeps_set_hat. intros h. apply Ha.
Qed.

Lemma keeps_pdp_context_activate_address (id : Z) (action : PdpAction) :
  (∀ v k h, R h (with_pdp_contexts
                   (alter (PdpContext.set_ip_address v) k (_pdp_contexts h)) h)) →
  (∀ v h, R h (with_active_pdp_context v h)) →
  keeps R (pdp_context_activate modem id action).
Proof.
  intros Hg Ha. unfold pdp_context_activate.
  apply keeps_bind; [apply keeps_gets|]. intros contexts.
  destruct (contexts !! id) as [c|]; [|apply keeps_raise].
  apply keeps_bind; [apply keeps_raise_if|]. intros _.
  apply keeps_bind; [apply keeps_at_command|]. intros _.
  destruct (PdpContext.is_ip c); [|apply keeps_ret].
  apply keeps_bind; [apply keeps_raise|]. intros deactivate.
  destruct (PdpAction_eqb action deactivate).
  - apply keeps_bind; [apply keeps_set_hat; intros h; apply Hg|].
    intros _. apply keeps_set_hat. intros h. apply Ha.
  - apply keeps_bind; [apply keeps_at_command|]. intros res.
    apply keeps_scan_cnact_address; assumption.
Qed.

(** Every operation moves the controller along [R] as soon as the
    assignments it can make do. *)
Lemma keeps_exec (op : Op) (s : St) :
  (writes_ready op = true → ∀ v h, R h (with_ready v h)) →
  (writes_registry op = true →
   (∀ u pw a k h,
      R h (with_pdp_contexts
             (alter (PdpContext.set_configured u pw a) k (_pdp_contexts h)) h))
   ∧ (∀ v k h,
        R h (with_pdp_contexts
               (alter (PdpContext.set_ip_address v) k (_pdp_contexts h)) h))
   ∧ (∀ v h, R h (with_active_pdp_context v h))) →
  (writes_session op = true → ∀ v h, R h (with_mqtt_connected v h)) →
  R (hat s) (hat (exec modem files op s)).
Proof.
  intros Hready Hreg Hsess. destruct op; cbn [exec].
  - apply keeps_power_on.
  - apply keeps_power_off.
  - apply keeps_initialize, Hready. reflexivity.
  - apply keeps_ready, Hready. reflexivity.
  - apply keeps_at_command.
  - apply keeps_disable_rf.
  - apply keeps_enable_rf.
  - apply keeps_pdp_context_define.
  - apply keeps_pdp_context_configure. intros h. apply Hreg. reflexivity.
  - destruct (Hreg eq_refl) as (_ & Haddr & Hact).
    apply keeps_pdp_context_activate_address; assumption.
  - apply keeps_put_file_in_flash.
  - apply keeps_pdp_context_configure_ssl.
  - apply keeps_mqtt_connect. intros h. apply Hsess. reflexivity.
  - apply keeps_mqtt_disconnect. intros h. apply Hsess. reflexivity.
  - apply keeps_mqtt_susbscribe.
  - apply keeps_mqtt_unsubscribe.
  - apply keeps_mqtt_publish.
Qed.

End Frame.

(** *** Operations that leave the controller record alone *)

Lemma define_keeps_hat (id : Z) (apn : string) (ds : DataService) (s : St) :
  hat (snd (pdp_context_define modem id apn ds s)) = hat s.
Proof.
  symmetry. apply (keeps_pdp_context_define eq); [reflexivity|].
  intros; etransitivity; eassumption.
Qed.

(** C1: on a controller fresh from its constructor, whatever the modem
    answers to [pdp_context_define(0, 'ciot', IP_V4)], the registry is
    still empty afterwards, so [pdp_context_configure(0)] and
    [pdp_context_activate(0)] both raise the ValueError that context 0 is
    not defined, before any command is written, and no context is active:
    the round trip cannot complete. *)
Theorem round_trip_stops_at_configure :
  let s1 := snd (pdp_context_define modem 0 "ciot" IP_V4 St_init) in
  _pdp_contexts (hat s1) = ∅
  ∧ pdp_context_configure modem 0 None None EmptyString EmptyString None s1
    = (Raise (ValueError "PDP context ID 0 not defined"), s1)
  ∧ pdp_context_activate modem 0 ACTIVATE s1
    = (Raise (ValueError "PDP context ID 0 not defined"), s1)
  ∧ _active_pdp_context (hat s1) = None.
Proof.
  intros s1.
  assert (Hh : hat s1 = Hat_init) by apply define_keeps_hat.
  clearbody s1. split; [|split; [|split]].
  - rewrite Hh. reflexivity.
  - unfold pdp_context_configure. rewrite run_gets, Hh. reflexivity.
  - unfold pdp_context_activate. rewrite run_gets, Hh. reflexivity.
  - rewrite Hh. reflexivity.
Qed.

(** C7: when one of the three credential files is not a local file,
    [pdp_context_configure_ssl] raises FileNotFoundError and leaves the
    whole state, the trace of written commands included, as it found it:
    no filesystem-init command, and no other command, is issued. *)
Theorem configure_ssl_missing_file (ca_file cert_file key_file : string)
    (s : St) :
  files ca_file = None ∨ files cert_file = None ∨ files key_file = None →
  ∃ msg, pdp_context_configure_ssl modem files ca_file cert_file key_file s
         = (Raise (FileNotFoundError msg), s).
Proof.
  intros Hmiss. unfold pdp_context_configure_ssl, isfile.
  rewrite run_raise_if.
  destruct (files ca_file) as [ca|] eqn:Hca; cbn; [|eauto].
  rewrite run_raise_if.
  destruct (files cert_file) as [cert|] eqn:Hcert; cbn; [|eauto].
  rewrite run_raise_if.
  destruct (files key_file) as [key|] eqn:Hkey; cbn; [|eauto].
  destruct Hmiss as [H | [H | H]]; discriminate H.
Qed.

(** *** [initialize] and the [ready] property *)

Lemma initialize_loop_total (n : nat) (s : St) :
  ∃ b s', initialize_loop modem n s = (Ok b, s').
Proof.
  revert s. induction n as [|n IH]; intros s; cbn [initialize_loop].
  - eexists _, _. reflexivity.
  - rewrite run_at_command by reflexivity.
    destruct (line_in "OK" _); [eexists _, _; reflexivity|].
    unfold power_on. rewrite run_bind. cbn. apply IH.
Qed.

Lemma initialize_sets_ready (max_attempts : Z) (s : St) :
  ∃ b s', initialize modem max_attempts s = (Ok b, s')
          ∧ _ready (hat s') = Some b.
Proof.
  unfold initialize. rewrite run_bind.
  destruct (initialize_loop_total (Z.to_nat max_attempts) s) as (b & s1 & ->).
  eexists _, _. split; reflexivity.
Qed.

Lemma exec_keeps_ready (op : Op) (s : St) :
  (∀ n, op ≠ OpInitialize n) → op ≠ OpReady →
  _ready (hat (exec modem files op s)) = _ready (hat s).
Proof.
  intros Hinit Hready. symmetry.
  set (R := λ h h' : Hat, _ready h = _ready h').
  assert (Hrefl : ∀ h, R h h) by reflexivity.
  assert (Htrans : ∀ h1 h2 h3, R h1 h2 → R h2 h3 → R h1 h3)
    by (unfold R; intros; congruence).
  destruct op; cbn [exec];
    try match goal with
        | |- _ = _ (hat (snd (?m s))) => change (R (hat s) (hat (snd (m s))))
        end.
  - apply keeps_power_on; assumption.
  - apply keeps_power_off; assumption.
  - destruct (Hinit max_attempts). reflexivity.
  - destruct Hready. reflexivity.
  - apply keeps_at_command; assumption.
  - apply keeps_disable_rf; assumption.
  - apply keeps_enable_rf; assumption.
  - apply keeps_pdp_context_define; assumption.
  - apply keeps_pdp_context_configure; first [assumption | reflexivity].
  - apply keeps_pdp_context_activate; first [assumption | reflexivity].
  - apply keeps_put_file_in_flash; assumption.
  - apply keeps_pdp_context_configure_ssl; assumption.
  - apply keeps_mqtt_connect; first [assumption | reflexivity].
  - apply keeps_mqtt_disconnect; first [assumption | reflexivity].
  - apply keeps_mqtt_susbscribe; assumption.
  - apply keeps_mqtt_unsubscribe; assumption.
  - apply keeps_mqtt_publish; assumption.
Qed.

(** C9, as the code has it: the ready state is written by [initialize]
    alone (run directly or through the property); reading it when it is
    already true or false changes nothing, the trace included; reading it
    while it is unknown runs [initialize] with the default three attempts
    and returns what that probe found. *)
Theorem ready_probes_only_when_unknown (s : St) :
  (∀ b, _ready (hat s) = Some b → ready modem s = (Ok (Some b), s))
  ∧ (_ready (hat s) = None →
     ∃ responsive s', initialize modem 3 s = (Ok responsive, s')
                      ∧ ready modem s = (Ok (Some responsive), s'))
  ∧ (∀ op, (∀ n, op ≠ OpInitialize n) → op ≠ OpReady →
       _ready (hat (exec modem files op s)) = _ready (hat s)).
Proof.
  split; [|split].
  - intros b Hb. unfold ready. rewrite run_gets, Hb, run_ret.
    unfold gets. rewrite Hb. reflexivity.
  - intros Hnone. unfold ready. rewrite run_gets, Hnone.
    destruct (initialize_sets_ready 3 s) as (b & s' & Hrun & Hb).
    exists b, s'. split; [exact Hrun|].
    rewrite !run_bind, Hrun. cbn. unfold gets. cbn. rewrite Hb. reflexivity.
  - intros op. apply exec_keeps_ready.
Qed.

(** *** The configure command *)

Lemma append_nil_r (s : string) : s +:+ EmptyString = s.
Proof.
  induction s as [|a s IH]; [reflexivity|].
  change (String a (s +:+ EmptyString) = String a s). now rewrite IH.
Qed.

Lemma append_assoc (s1 s2 s3 : string) :
  (s1 +:+ s2) +:+ s3 = s1 +:+ (s2 +:+ s3).
Proof.
  induction s1 as [|a s1 IH]; [reflexivity|].
  change (String a ((s1 +:+ s2) +:+ s3) = String a (s1 +:+ (s2 +:+ s3))).
  now rewrite IH.
Qed.

Lemma str_falsy_false (s : string) : s ≠ EmptyString → str_falsy s = false.
Proof. destruct s; [congruence | reflexivity]. Qed.

(** What [pdp_context_configure] writes for a defined context, with the
    apn and data service left to the context's own. *)
Lemma pdp_context_configure_sends (id : Z) (c : PdpContext.t)
    (u pw : string) (a : option AuthType) (s : St) :
  _pdp_contexts (hat s) !! id = Some c →
  trace (world (snd (pdp_context_configure modem id None None u pw a s)))
  = at_trace (config_command id (PdpContext.data_service c)
                             (PdpContext.apn c) u pw a) (1 # 10) s.
Proof.
  intros Hc. unfold pdp_context_configure. rewrite run_gets, Hc.
  cbv zeta. rewrite run_at_command by reflexivity. rewrite run_raise_if.
  cbn [default]. destruct (negb _); reflexivity.
Qed.

(** C5: the trailing fields of the configure command.  With a username
    only the command is the base command followed by [,username]; with a
    username and a password, by [,username,password]; with an auth method
    and neither username nor password, by [,,,code] where [code] is the
    number of the auth method; with none of the three it is the base
    command alone. *)
Theorem config_command_trailing_fields (id : Z) (ds : DataService)
    (apn u pw : string) (a : AuthType) :
  (u ≠ EmptyString →
     config_command id ds apn u EmptyString None
     = config_base id ds apn +:+ "," +:+ u
     ∧ ends_with (config_command id ds apn u EmptyString None) ("," +:+ u))
  ∧ (u ≠ EmptyString → pw ≠ EmptyString →
     config_command id ds apn u pw None
     = config_base id ds apn +:+ "," +:+ u +:+ "," +:+ pw
     ∧ ends_with (config_command id ds apn u pw None)
                 ("," +:+ u +:+ "," +:+ pw))
  ∧ (config_command id ds apn EmptyString EmptyString (Some a)
     = config_base id ds apn +:+ ",,," +:+ str_of_Z (AuthType_value a)
     ∧ ends_with (config_command id ds apn EmptyString EmptyString (Some a))
                 (",,," +:+ str_of_Z (AuthType_value a)))
  ∧ config_command id ds apn EmptyString EmptyString None
    = config_base id ds apn.
Proof.
  unfold config_command, config_credentials, config_auth, ends_with.
  repeat split.
  - rewrite str_falsy_false by assumption. cbn [str_falsy].
    now rewrite !append_nil_r.
  - rewrite str_falsy_false by assumption. cbn [str_falsy].
    rewrite !append_nil_r. eexists. reflexivity.
  - rewrite !str_falsy_false by assumption.
    now rewrite !append_nil_r.
  - rewrite !str_falsy_false by assumption.
    rewrite !append_nil_r. eexists. reflexivity.
  - eexists. reflexivity.
  - cbn. now rewrite append_nil_r.
Qed.

(** *** Transmission waits *)

Lemma math_ceil_div_spec (a b : Z) :
  0 < b → (math_ceil_div a b - 1) * b < a ≤ math_ceil_div a b * b.
Proof.
  intros Hb. unfold math_ceil_div.
  pose proof (Z.div_mod (- a) b ltac:(lia)) as Hdm.
  pose proof (Z.mod_pos_bound (- a) b Hb) as Hmod.
  nia.
Qed.

Lemma math_ceil_div_nonneg (a b : Z) : 0 ≤ a → 0 < b → 0 ≤ math_ceil_div a b.
Proof.
  intros Ha Hb. pose proof (math_ceil_div_spec a b Hb). nia.
Qed.

Lemma sleep_ceil_run {B} (a b : Z) (f : unit → M B) (s : St) :
  0 ≤ a → 0 < b →
  (sleep_ceil modem a b ≫= f) s
  = f tt (mkSt (hat s)
               (mkWorld
                  (in_waiting (world s)
                   +:+ modem (trace (world s)
                              ++ [Sleep (inject_Z (math_ceil_div a b))]))
                  (trace (world s) ++ [Sleep (inject_Z (math_ceil_div a b))]))).
Proof.
  intros Ha Hb. unfold sleep_ceil.
  destruct (b =? 0) eqn:Hz; [lia|].
  rewrite run_bind. unfold sleep.
  assert (Hq : Qle_bool 0 (inject_Z (math_ceil_div a b)) = true).
  { apply Qle_bool_iff. change 0%Q with (inject_Z 0). rewrite <- Zle_Qle.
    apply math_ceil_div_nonneg; assumption. }
  rewrite Hq. reflexivity.
Qed.

Lemma publish_wait (topic payload : string) (qos : Z) (retain : bool)
    (s : St) :
  0 < _baudrate (hat s) →
  line_in ">" (at_lines modem (smpub_command topic payload qos retain)
                        (1 # 10) s) = true →
  trace (world (snd (mqtt_publish modem topic payload qos retain s)))
  = at_trace (smpub_command topic payload qos retain) (1 # 10) s
    ++ [Write payload;
        Sleep (inject_Z (math_ceil_div (Z.of_nat (String.length payload))
                                       (_baudrate (hat s))))].
Proof.
  intros Hbaud Hprompt. unfold mqtt_publish. cbv zeta.
  rewrite run_at_command by reflexivity. rewrite run_raise_if, Hprompt.
  cbn [negb]. unfold uart_write. rewrite run_bind. cbn [emit].
  rewrite run_gets. cbn [hat at_after].
  rewrite sleep_ceil_run by (cbn; lia).
  unfold uart_pending. rewrite run_bind. cbn [world in_waiting trace hat].
  destruct (str_falsy _); cbn; now rewrite <- app_assoc.
Qed.

Lemma upload_wait (filename flashname content : string) (s : St) :
  let size := Z.of_nat (String.length content) in
  let s1 := at_after "AT+CFSINIT" (1 # 10) s in
  0 < _baudrate (hat s) →
  files filename = Some content →
  line_in "OK" (at_lines modem "AT+CFSINIT" (1 # 10) s) = true →
  line_in "DOWNLOAD"
          (at_lines modem (cfswfile_command flashname size) (1 # 10) s1) = true →
  ∃ rest,
    trace (world (snd (_put_file_in_flash modem files filename flashname s)))
    = at_trace (cfswfile_command flashname size) (1 # 10) s1
      ++ [Write content;
          Sleep (inject_Z (math_ceil_div (size * 8) (_baudrate (hat s))))]
      ++ rest.
Proof.
  intros size s1 Hbaud Hfile Hinit Hdown. unfold _put_file_in_flash.
  rewrite run_at_command by reflexivity. rewrite run_raise_if, Hinit.
  cbn [negb]. fold s1. unfold getsize, read_file.
  rewrite Hfile, run_assoc, !run_ret.
  fold size. rewrite run_at_command by reflexivity.
  rewrite run_raise_if, Hdown. cbn [negb].
  unfold uart_write. rewrite run_ret, run_emit, run_gets.
  rewrite sleep_ceil_run by (cbn; lia). rewrite run_uart_pending.
  cbn [hat world trace in_waiting at_after].
  match goal with
  | |- context [mkSt ?h (mkWorld ?b ?t)] => set (s2 := mkSt h (mkWorld b t))
  end.
  assert (Htr : trace (world s2)
                = at_trace (cfswfile_command flashname size) (1 # 10) s1
                  ++ [Write content;
                      Sleep (inject_Z (math_ceil_div (size * 8)
                                                     (_baudrate (hat s))))]).
  { subst s2. cbn [world trace]. now rewrite <- app_assoc. }
  clearbody s2. destruct (str_falsy _).
  - rewrite run_ret, run_at_command by reflexivity. unfold raise_if.
    exists [Write ("AT+CFSTERM" +:+ chr CR); Sleep (1 # 10)].
    destruct (negb _); unfold raise, mret, M_ret; cbn [snd];
      rewrite trace_at_after, Htr; unfold at_trace; now rewrite <- !app_assoc.
  - rewrite run_assoc, run_uart_read_all, run_raise_if.
    destruct (negb (str_contains _ _)).
    + exists []. unfold raise. cbn [snd world trace]. rewrite Htr.
      now rewrite app_nil_r.
    + rewrite run_at_command by reflexivity. unfold raise_if.
      exists [Write ("AT+CFSTERM" +:+ chr CR); Sleep (1 # 10)].
      destruct (negb _); unfold raise, mret, M_ret; cbn [snd];
        rewrite trace_at_after; cbn [world trace]; rewrite Htr;
        unfold at_trace; now rewrite <- !app_assoc.
Qed.

(** C8: once the payload of a publish is written, the driver sleeps the
    whole number of seconds [w] with [w - 1 < L / R <= w], the ceiling of
    payload length over bit rate, and nothing comes between the write and
    that sleep; once the bytes of an uploaded file are written it sleeps
    the ceiling of [size * 8 / R] in the same way.  ([L / R] is the exact
    quotient.) *)
Theorem transmission_wait_is_ceiling (topic payload : string) (qos : Z)
    (retain : bool) (filename flashname content : string) (s : St) :
  let R := _baudrate (hat s) in
  let L := Z.of_nat (String.length payload) in
  let size := Z.of_nat (String.length content) in
  let s1 := at_after "AT+CFSINIT" (1 # 10) s in
  0 < R →
  (line_in ">" (at_lines modem (smpub_command topic payload qos retain)
                         (1 # 10) s) = true →
   ∃ w, (w - 1) * R < L ≤ w * R
        ∧ trace (world (snd (mqtt_publish modem topic payload qos retain s)))
          = at_trace (smpub_command topic payload qos retain) (1 # 10) s
            ++ [Write payload; Sleep (inject_Z w)])
  ∧ (files filename = Some content →
     line_in "OK" (at_lines modem "AT+CFSINIT" (1 # 10) s) = true →
     line_in "DOWNLOAD"
             (at_lines modem (cfswfile_command flashname size) (1 # 10) s1)
     = true →
     ∃ w rest, (w - 1) * R < size * 8 ≤ w * R
        ∧ trace (world (snd (_put_file_in_flash modem files filename
                                                flashname s)))
          = at_trace (cfswfile_command flashname size) (1 # 10) s1
            ++ [Write content; Sleep (inject_Z w)] ++ rest).
Proof.
  intros R L size s1 HR. split.
  - intros Hprompt. exists (math_ceil_div L R).
    split; [apply math_ceil_div_spec, HR|].
    apply publish_wait; assumption.
  - intros Hfile Hinit Hdown.
    destruct (upload_wait filename flashname content s HR Hfile Hinit Hdown)
      as [rest Hrest].
    exists (math_ceil_div (size * 8) R), rest.
    split; [apply math_ceil_div_spec, HR | exact Hrest].
Qed.

(** *** Activation and deactivation *)

(** *** The registry invariant *)

(** *** Activation and deactivation *)

(** On a configured IP-capable context the activation command is written,
    then the lookup of [PdpAction.DEACTIVATE] raises. *)
Lemma activate_ip_run (id : Z) (action : PdpAction) (c : PdpContext.t)
    (s : St) :
  _pdp_contexts (hat s) !! id = Some c →
  PdpContext.configured c = true →
  PdpContext.is_ip c = true →
  pdp_context_activate modem id action s
  = (Raise (AttributeError "DEACTIVATE"),
     at_after (cnact_command id action) (1 # 10) s).
Proof.
  intros Hc Hconf Hip. unfold pdp_context_activate.
  rewrite run_gets, Hc, run_raise_if, Hconf. cbn [negb].
  rewrite run_at_command by reflexivity. rewrite Hip.
  unfold PdpAction_DEACTIVATE. now rewrite run_raise.
Qed.

Lemma activate_keeps_hat (id : Z) (action : PdpAction) (s : St) :
  hat (snd (pdp_context_activate modem id action s)) = hat s.
Proof.
  unfold pdp_context_activate. rewrite run_gets.
  destruct (_pdp_contexts (hat s) !! id) as [c|]; [|reflexivity].
  rewrite run_raise_if. destruct (negb _); [reflexivity|].
  rewrite run_at_command by reflexivity.
  destruct (PdpContext.is_ip c); [|reflexivity].
  unfold PdpAction_DEACTIVATE. now rewrite run_raise.
Qed.

(** C3: deactivating a configured IP-capable context of the registry
    writes the activation command and then raises AttributeError, because
    the class [PdpAction] has no member [DEACTIVATE] to compare the action
    with: the assignments that would clear the address and the active
    pointer are not reached and the controller record is as before. *)
Theorem deactivate_raises_before_clearing (id : Z) (c : PdpContext.t)
    (s : St) :
  _pdp_contexts (hat s) !! id = Some c →
  PdpContext.configured c = true →
  PdpContext.is_ip c = true →
  let r := pdp_context_activate modem id DEACTIVATE s in
  (∃ msg, fst r = Raise (AttributeError msg))
  ∧ hat (snd r) = hat s
  ∧ trace (world (snd r))
    = trace (world s) ++ exchange (cnact_command id DEACTIVATE).
Proof.
  intros Hc Hconf Hip r. subst r.
  rewrite (activate_ip_run id DEACTIVATE c s Hc Hconf Hip). cbn [fst snd].
  split; [eexists; reflexivity|]. split; [reflexivity|].
  apply trace_at_after.
Qed.

(** C10: activating or auto-activating a configured IP-capable context of
    the registry writes the activation command and then raises
    AttributeError on the lookup of [PdpAction.DEACTIVATE]: the context
    table is never queried, so the call does not complete, whatever the
    table would have held; the controller record is as before. *)
Theorem activate_raises_before_table_query (id : Z) (action : PdpAction)
    (c : PdpContext.t) (s : St) :
  _pdp_contexts (hat s) !! id = Some c →
  PdpContext.configured c = true →
  PdpContext.is_ip c = true →
  action ≠ DEACTIVATE →
  let r := pdp_context_activate modem id action s in
  (∃ msg, fst r = Raise (AttributeError msg))
  ∧ hat (snd r) = hat s
  ∧ trace (world (snd r))
    = trace (world s) ++ exchange (cnact_command id action)
  ∧ Write ("AT+CNACT?" +:+ chr CR) ∉ exchange (cnact_command id action).
Proof.
  intros Hc Hconf Hip _ r. subst r.
  rewrite (activate_ip_run id action c s Hc Hconf Hip). cbn [fst snd].
  split; [eexists; reflexivity|]. split; [reflexivity|].
  split; [apply trace_at_after|].
  unfold exchange, cnact_command. rewrite !not_elem_of_cons.
  repeat split; [| discriminate | apply not_elem_of_nil].
  intros H. injection H as H. cbv [String.append] in H. discriminate H.
Qed.

(** *** The registry invariant *)

Lemma address_iff_active_init : address_iff_active Hat_init.
Proof.
  intros id c Hc. cbn in Hc. rewrite lookup_empty in Hc. discriminate Hc.
Qed.

Lemma address_iff_active_configured (u pw : string) (a : option AuthType)
    (id : Z) (h : Hat) :
  address_iff_active h →
  address_iff_active
    (with_pdp_contexts
       (alter (PdpContext.set_configured u pw a) id (_pdp_contexts h)) h).
Proof.
  intros Hinv k c. cbn [with_pdp_contexts _pdp_contexts _active_pdp_context].
  destruct (decide (id = k)) as [->|Hne].
  - rewrite lookup_alter_eq.
    destruct (_pdp_contexts h !! k) as [c0|] eqn:Hc0; [|discriminate].
    intros Hc. injection Hc as <-. exact (Hinv k c0 Hc0).
  - rewrite lookup_alter_ne by exact Hne. apply Hinv.
Qed.

Lemma exec_keeps_address_iff_active (op : Op) (s : St) :
  address_iff_active (hat s) →
  address_iff_active (hat (exec modem files op s)).
Proof.
  set (R := λ h h' : Hat, address_iff_active h → address_iff_active h').
  assert (Hrefl : ∀ h, R h h) by (intros h H; exact H).
  assert (Htrans : ∀ h1 h2 h3, R h1 h2 → R h2 h3 → R h1 h3)
    by (unfold R; intros h1 h2 h3 H12 H23 H; auto).
  assert (Hready : ∀ v h, R h (with_ready v h)) by (intros v h H; exact H).
  assert (Hmqtt : ∀ v h, R h (with_mqtt_connected v h))
    by (intros v h H; exact H).
  destruct op; cbn [exec];
    try match goal with
        | |- _ → _ (hat (snd (?m s))) => change (R (hat s) (hat (snd (m s))))
        end.
  - apply keeps_power_on; assumption.
  - apply keeps_power_off; assumption.
  - apply keeps_initialize; assumption.
  - apply keeps_ready; assumption.
  - apply keeps_at_command; assumption.
  - apply keeps_disable_rf; assumption.
  - apply keeps_enable_rf; assumption.
  - apply keeps_pdp_context_define; assumption.
  - apply keeps_pdp_context_configure; try assumption.
    intros h Hh. now apply address_iff_active_configured.
  - unfold R. now rewrite activate_keeps_hat.
  - apply keeps_put_file_in_flash; assumption.
  - apply keeps_pdp_context_configure_ssl; assumption.
  - apply keeps_mqtt_connect; first [assumption | apply Hmqtt].
  - apply keeps_mqtt_disconnect; first [assumption | apply Hmqtt].
  - apply keeps_mqtt_susbscribe; assumption.
  - apply keeps_mqtt_unsubscribe; assumption.
  - apply keeps_mqtt_publish; assumption.
Qed.

Lemma run_keeps_address_iff_active (ops : list Op) (s : St) :
  address_iff_active (hat s) →
  address_iff_active (hat (run modem files ops s)).
Proof.
  revert s. induction ops as [|op ops IH]; intros s Hs; [exact Hs|].
  cbn [run foldl]. apply IH. now apply exec_keeps_address_iff_active.
Qed.

(** C4: the registry invariant, that a context holds an address exactly
    when it is the active one and IP-capable (at most one context being
    named active, by the single optional pointer), holds on the
    controller fresh from its constructor and after every sequence of
    operations on it; every operation also keeps it from any state where
    it holds. *)
Theorem address_iff_active_invariant :
  (∀ ops, address_iff_active (hat (run modem files ops St_init)))
  ∧ (∀ op s, address_iff_active (hat s) →
             address_iff_active (hat (exec modem files op s))).
Proof.
  split.
  - intros ops. apply run_keeps_address_iff_active, address_iff_active_init.
  - apply exec_keeps_address_iff_active.
Qed.

(** *** The MQTT session flag *)

(** X24: [mqtt_connect] writes the flag on its last line only: it is true
    after a confirmed connect and as it was after any exception. *)
Lemma mqtt_connect_flag (url : string) (port : Z) (cid : string) (ka : Z)
    (ssl : bool) (s : St) :
  let r := mqtt_connect modem url port cid ka ssl s in
  match fst r with
  | Ok _ => _mqtt_connected (hat (snd r)) = true
  | Raise _ => _mqtt_connected (hat (snd r)) = _mqtt_connected (hat s)
  end.
Proof.
  cbv zeta. unfold mqtt_connect, active_context.
  rewrite run_assoc, run_gets.
  destruct (_active_pdp_context (hat s)) as [key|]; [|reflexivity].
  rewrite !run_assoc, run_raise_if.
  destruct (key =? 0); [reflexivity|].
  rewrite run_assoc, run_gets.
  destruct (_pdp_contexts (hat s) !! key) as [c|]; [|reflexivity].
  rewrite run_ret, run_raise_if.
  destruct (ip_falsy _); [reflexivity|].
  rewrite run_at_command by reflexivity. rewrite run_raise_if.
  destruct (negb _); [reflexivity|].
  rewrite run_at_command by reflexivity. rewrite run_raise_if.
  destruct (negb _); [reflexivity|].
  rewrite run_at_command by reflexivity. rewrite run_raise_if.
  destruct (negb _); [reflexivity|].
  rewrite run_at_command by reflexivity. rewrite run_raise_if.
  destruct (negb _); [reflexivity|].
  destruct ssl; [reflexivity|].
  rewrite run_ret, run_at_command by reflexivity. rewrite run_raise_if.
  destruct (negb _); reflexivity.
Qed.

(** *** More on the command channel and the lifecycle controller *)

(** X1: for ASCII traffic and a settle time from 0 to 9e9 seconds, a
    command discards the bytes that were waiting in the input buffer: it
    returns the lines of what the modem delivers during the settle time
    only, none of them empty, leaves the buffer empty, adds the command and
    the sleep to the trace and leaves the controller record untouched. *)
Theorem at_command_exchange (command : string) (timeout : Q) (stale : string)
    (s : St) :
  (0 <= timeout)%Q → (timeout <= 9000000000)%Q →
  is_ascii stale = true →
  is_ascii (modem (trace (world s)
                   ++ [Write (command +:+ chr CR); Sleep timeout])) = true →
  ∃ lines s',
    at_command modem command timeout
               (mkSt (hat s) (mkWorld stale (trace (world s))))
    = (Ok lines, s')
    ∧ lines = response_lines
                (modem (trace (world s)
                        ++ [Write (command +:+ chr CR); Sleep timeout]))
    ∧ Forall (λ l, l ≠ EmptyString) lines
    ∧ hat s' = hat s
    ∧ in_waiting (world s') = EmptyString
    ∧ trace (world s')
      = trace (world s) ++ [Write (command +:+ chr CR); Sleep timeout].
Proof.
  intros Ht _ _ _. apply Qle_bool_iff in Ht.
  eexists _, _. split; [apply at_command_run; exact Ht|].
  unfold at_lines, at_after, at_trace. cbn [hat world trace in_waiting].
  rewrite <- app_assoc. repeat split.
  apply Forall_forall. intros l Hl. unfold response_lines in Hl.
  apply list_elem_of_filter in Hl. exact (proj1 Hl).
Qed.

(** X2: with a negative settle time the command is written all the same,
    then the sleep raises ValueError: nothing is read and the trace holds
    the write without a sleep. *)
Theorem at_command_negative_timeout (command : string) (timeout : Q) (s : St) :
  (timeout < 0)%Q →
  at_command modem command timeout s
  = (Raise (ValueError "sleep length must be non-negative"),
     mkSt (hat s)
          (mkWorld EmptyString
                   (trace (world s) ++ [Write (command +:+ chr CR)]))).
Proof.
  intros Ht. unfold at_command, uart_write.
  rewrite run_uart_read_all, run_emit, run_bind. unfold sleep.
  destruct (Qle_bool 0 timeout) eqn:Hle; [|reflexivity].
  apply Qle_bool_iff in Hle. exfalso. exact (Qlt_not_le _ _ Ht Hle).
Qed.

Lemma at_after_exchange (command : string) (s : St) :
  at_after command (1 # 10) s
  = mkSt (hat s) (mkWorld EmptyString (trace (world s) ++ exchange command)).
Proof. unfold at_after, at_trace, exchange. now rewrite <- app_assoc. Qed.

Lemma probe_answered_first (s : St) :
  probe_answered modem (trace (world s)) 0
  = line_in "OK" (at_lines modem "AT" 1 s).
Proof.
  unfold probe_answered, at_lines, at_trace, probe. cbn [replicate concat app].
  now rewrite <- app_assoc.
Qed.

Lemma probe_answered_next (tr : list Event) (i : nat) :
  probe_answered modem (tr ++ failed_probe) i = probe_answered modem tr (S i).
Proof.
  unfold probe_answered. rewrite replicate_S. cbn [concat].
  now rewrite <- !app_assoc.
Qed.

Lemma initialize_loop_trace (n : nat) (s : St) :
  ∃ b s' j,
    initialize_loop modem n s = (Ok b, s')
    ∧ hat s' = hat s
    ∧ trace (world s')
      = trace (world s) ++ concat (replicate j failed_probe)
        ++ (if b then probe else [])
    ∧ (∀ i, (i < j)%nat → probe_answered modem (trace (world s)) i = false)
    ∧ (if b then (j < n)%nat ∧ probe_answered modem (trace (world s)) j = true
       else j = n).
Proof.
  revert s. induction n as [|n IH]; intros s; cbn [initialize_loop].
  - exists false, s, 0%nat. cbn. rewrite app_nil_r.
    repeat split. intros i Hi. lia.
  - rewrite run_at_command by reflexivity.
    destruct (line_in "OK" _) eqn:Hok.
    + exists true, (at_after "AT" 1 s), 0%nat.
      rewrite trace_at_after, probe_answered_first.
      repeat split; [intros i Hi; lia | lia | exact Hok].
    + unfold power_on. rewrite run_emit.
      match goal with |- context [initialize_loop modem n ?st] =>
        set (s1 := st);
        destruct (IH s1) as (b & s' & j & Hrun & Hhat & Htr & Hbefore & Hj)
      end.
      assert (Hs1 : trace (world s1) = trace (world s) ++ failed_probe).
      { subst s1. cbn [world trace]. rewrite trace_at_after.
        unfold failed_probe, probe. now rewrite <- app_assoc. }
      rewrite Hs1 in Htr, Hbefore, Hj.
      exists b, s', (S j). rewrite Hrun. split; [reflexivity|].
      split; [exact Hhat|]. split; [|split].
      * rewrite Htr, replicate_S. cbn [concat]. now rewrite <- !app_assoc.
      * intros [|i] Hi.
        -- now rewrite probe_answered_first.
        -- rewrite <- probe_answered_next. apply Hbefore. lia.
      * destruct b.
        -- destruct Hj as [Hlt Hans]. split; [lia|].
           now rewrite <- probe_answered_next.
        -- lia.
Qed.

(** X3: [initialize] is a bounded retry.  For ASCII traffic it returns
    the boolean it stores in the ready state and changes nothing else of
    the controller.  Its trace is [j] probes whose response did not hold
    the line OK, each followed by one power pulse, then, when it returns
    true, one probe whose response did hold OK and no pulse: [j] is below
    [max_attempts] when it returns true, and when it returns false [j]
    equals [max_attempts] (0 when that is not positive). *)
Theorem initialize_bounded_retry (max_attempts : Z) (s : St) :
  (∀ tr, is_ascii (modem tr) = true) →
  is_ascii (in_waiting (world s)) = true →
  ∃ b s' j,
    initialize modem max_attempts s = (Ok b, s')
    ∧ hat s' = with_ready (Some b) (hat s)
    ∧ trace (world s')
      = trace (world s) ++ concat (replicate j failed_probe)
        ++ (if b then probe else [])
    ∧ (∀ i, (i < j)%nat → probe_answered modem (trace (world s)) i = false)
    ∧ (if b then (j < Z.to_nat max_attempts)%nat
                 ∧ probe_answered modem (trace (world s)) j = true
       else j = Z.to_nat max_attempts).
Proof.
  intros _ _.
  destruct (initialize_loop_trace (Z.to_nat max_attempts) s)
    as (b & s1 & j & Hrun & Hhat & Htr & Hbefore & Hj).
  exists b, (mkSt (with_ready (Some b) (hat s1)) (world s1)), j.
  unfold initialize. rewrite run_bind, Hrun, run_set_hat.
  cbn [hat world]. rewrite Hhat. auto.
Qed.

(** *** More on the context manager *)


(** X7: a context that is not in the registry can be neither configured
    nor activated, and a context that is not configured cannot be
    activated: each call raises ValueError with the state, trace included,
    as it was, so nothing is written. *)
Theorem unknown_context_rejected_before_io (id : Z) (s : St) :
  (_pdp_contexts (hat s) !! id = None →
   (∀ apn ds u pw a,
      pdp_context_configure modem id apn ds u pw a s
      = (Raise (ValueError ("PDP context ID " +:+ str_of_Z id +:+ " not defined")),
         s))
   ∧ (∀ action,
        pdp_context_activate modem id action s
        = (Raise (ValueError ("PDP context ID " +:+ str_of_Z id +:+ " not defined")),
           s)))
  ∧ (∀ c action,
       _pdp_contexts (hat s) !! id = Some c →
       PdpContext.configured c = false →
       pdp_context_activate modem id action s
       = (Raise (ValueError ("PDP context ID " +:+ str_of_Z id
                             +:+ " not configured")),
          s)).
Proof.
  split.
  - intros Hnone. split.
    + intros apn ds u pw a. unfold pdp_context_configure.
      now rewrite run_gets, Hnone.
    + intros action. unfold pdp_context_activate. now rewrite run_gets, Hnone.
  - intros c action Hc Hconf. unfold pdp_context_activate.
    now rewrite run_gets, Hc, run_raise_if, Hconf.
Qed.

(** X8: [pdp_context_configure] on a registered context writes one command,
    built from the apn and data service given (the context's own when they
    are left out or the apn is empty).  When the response holds OK the
    context becomes configured and stores the username, password and auth
    method, while its apn, data service and address stay as they were even
    when other ones were sent; no other context and not the active pointer
    changes.  Otherwise ValueError is raised and the controller record is as
    before. *)
Theorem configure_outcome (id : Z) (apn : option string)
    (ds : option DataService) (u pw : string) (a : option AuthType)
    (c : PdpContext.t) (s : St) :
  _pdp_contexts (hat s) !! id = Some c →
  let command := config_command id (configure_data_service ds c)
                                (configure_apn apn c) u pw a in
  let r := pdp_context_configure modem id apn ds u pw a s in
  trace (world (snd r)) = trace (world s) ++ exchange command
  ∧ (line_in "OK" (at_lines modem command (1 # 10) s) = true →
     fst r = Ok tt
     ∧ _pdp_contexts (hat (snd r)) !! id
       = Some (PdpContext.mk (PdpContext.id c) (PdpContext.apn c)
                 (PdpContext.data_service c) (PdpContext.ip_address c)
                 true (Some u) (Some pw) a)
     ∧ (∀ j, j ≠ id →
          _pdp_contexts (hat (snd r)) !! j = _pdp_contexts (hat s) !! j)
     ∧ _active_pdp_context (hat (snd r)) = _active_pdp_context (hat s))
  ∧ (line_in "OK" (at_lines modem command (1 # 10) s) = false →
     fst r = Raise (ValueError "Error: ") ∧ hat (snd r) = hat s).
Proof.
  intros Hc command r. subst r. unfold pdp_context_configure.
  rewrite run_gets, Hc. cbv zeta.
  fold (configure_apn apn c). fold (configure_data_service ds c).
  fold command. rewrite run_at_command by reflexivity. rewrite run_raise_if.
  destruct (line_in "OK" _).
  - cbn [negb]. unfold update_context, set_hat.
    cbn [fst snd hat world with_pdp_contexts _pdp_contexts _active_pdp_context].
    rewrite trace_at_after, hat_at_after. repeat split; try discriminate.
    + rewrite lookup_alter_eq, Hc. reflexivity.
    + intros j Hj. apply lookup_alter_ne. congruence.
  - cbn [negb fst snd]. rewrite trace_at_after.
    repeat split; discriminate.
Qed.

(** X9: activating, auto-activating or deactivating a configured context
    of a non-IP service is one exchange with the modem: the call returns
    normally whatever the modem answers, the context table is not queried,
    and the controller record (no address, active pointer untouched) is as
    before. *)
Theorem activate_non_ip_only_sends (id : Z) (action : PdpAction)
    (c : PdpContext.t) (s : St) :
  _pdp_contexts (hat s) !! id = Some c →
  PdpContext.configured c = true →
  PdpContext.is_ip c = false →
  pdp_context_activate modem id action s
  = (Ok tt,
     mkSt (hat s)
          (mkWorld EmptyString
                   (trace (world s) ++ exchange (cnact_command id action)))).
Proof.
  intros Hc Hconf Hip. unfold pdp_context_activate.
  rewrite run_gets, Hc, run_raise_if, Hconf. cbn [negb].
  rewrite run_at_command by reflexivity. rewrite Hip.
  apply f_equal, at_after_exchange.
Qed.

(** *** Which operation writes what *)

(** X12: the bit rate and [_rf_enabled] are never assigned by any
    operation; the ready state is assigned only by [initialize] and the
    [ready] property, the registry and the active pointer only by
    [pdp_context_configure] and [pdp_context_activate], and the connected
    flag only by [mqtt_connect] and [mqtt_disconnect]. *)
Theorem attributes_written_by_their_operations (op : Op) (s : St) :
  let h' := hat (exec modem files op s) in
  _baudrate h' = _baudrate (hat s)
  ∧ _rf_enabled h' = _rf_enabled (hat s)
  ∧ (writes_ready op = false → _ready h' = _ready (hat s))
  ∧ (writes_registry op = false →
     _pdp_contexts h' = _pdp_contexts (hat s)
     ∧ _active_pdp_context h' = _active_pdp_context (hat s))
  ∧ (writes_session op = false → _mqtt_connected h' = _mqtt_connected (hat s)).
Proof.
  cbv zeta. repeat apply conj.
  - symmetry.
    apply (keeps_exec (λ h h', _baudrate h = _baudrate h'));
      [reflexivity | intros; etransitivity; eassumption | ..];
      intros; repeat split; reflexivity.
  - symmetry.
    apply (keeps_exec (λ h h', _rf_enabled h = _rf_enabled h'));
      [reflexivity | intros; etransitivity; eassumption | ..];
      intros; repeat split; reflexivity.
  - intros Hop. symmetry.
    apply (keeps_exec (λ h h', _ready h = _ready h'));
      [reflexivity | intros; etransitivity; eassumption | ..];
      [congruence | intros; repeat split; reflexivity | intros; reflexivity].
  - intros Hop. split; symmetry.
    + apply (keeps_exec (λ h h', _pdp_contexts h = _pdp_contexts h'));
        [reflexivity | intros; etransitivity; eassumption | ..];
        [intros; reflexivity | congruence | intros; reflexivity].
    + apply (keeps_exec
               (λ h h', _active_pdp_context h = _active_pdp_context h'));
        [reflexivity | intros; etransitivity; eassumption | ..];
        [intros; reflexivity | congruence | intros; reflexivity].
  - intros Hop. symmetry.
    apply (keeps_exec (λ h h', _mqtt_connected h = _mqtt_connected h'));
      [reflexivity | intros; etransitivity; eassumption | ..];
      [intros; reflexivity | intros; repeat split; reflexivity | congruence].
Qed.

Lemma same_identity_refl (h : Hat) : same_identity h h.
Proof. intros k. destruct (_pdp_contexts h !! k); auto. Qed.

Lemma same_identity_trans (h1 h2 h3 : Hat) :
  same_identity h1 h2 → same_identity h2 h3 → same_identity h1 h3.
Proof.
  intros H12 H23 k. specialize (H12 k). specialize (H23 k).
  destruct (_pdp_contexts h1 !! k), (_pdp_contexts h2 !! k),
    (_pdp_contexts h3 !! k); try tauto.
  destruct H12 as (? & ? & ? & ?), H23 as (? & ? & ? & ?).
  repeat split; try congruence. auto.
Qed.

Lemma same_identity_alter (f : PdpContext.t → PdpContext.t) (k : Z) (h : Hat) :
  (∀ c, PdpContext.id (f c) = PdpContext.id c
        ∧ PdpContext.apn (f c) = PdpContext.apn c
        ∧ PdpContext.data_service (f c) = PdpContext.data_service c
        ∧ (PdpContext.configured c = true → PdpContext.configured (f c) = true)) →
  same_identity h (with_pdp_contexts (alter f k (_pdp_contexts h)) h).
Proof.
  intros Hf j. cbn [with_pdp_contexts _pdp_contexts].
  destruct (decide (k = j)) as [->|Hne].
  - rewrite lookup_alter_eq. destruct (_pdp_contexts h !! j); cbn; auto.
  - rewrite lookup_alter_ne by exact Hne.
    destruct (_pdp_contexts h !! j); auto.
Qed.

(** X13: no operation adds a context to the registry or removes one, and
    no operation changes the id, the apn or the data service of a
    registered context or takes back its configured state. *)
Theorem registry_identity_preserved (op : Op) (s : St) :
  same_identity (hat s) (hat (exec modem files op s)).
Proof.
  apply (keeps_exec same_identity);
    [apply same_identity_refl | apply same_identity_trans | ..].
  - intros _ v h. exact (same_identity_refl h).
  - intros _. repeat split.
    + intros u pw a k h. apply same_identity_alter. intros c. cbn. auto.
    + intros v k h. apply same_identity_alter. intros c. cbn. auto.
    + intros v h. exact (same_identity_refl h).
  - intros _ v h. exact (same_identity_refl h).
Qed.

(** *** More on secure provisioning *)

(** X15: when [_put_file_in_flash] returns normally the file exists, the
    controller record is as before and the trace grew by exactly: the
    filesystem init, the write-session command carrying the file's size in
    bytes, the file content, one sleep of the ceiling of size * 8 over the
    bit rate, and the filesystem terminate command. *)
Theorem put_file_success_commands (filename flashname : string) (s s' : St) :
  _put_file_in_flash modem files filename flashname s = (Ok tt, s') →
  ∃ content,
    files filename = Some content
    ∧ hat s' = hat s
    ∧ trace (world s')
      = trace (world s) ++ exchange "AT+CFSINIT"
        ++ exchange (cfswfile_command flashname
                       (Z.of_nat (String.length content)))
        ++ [Write content;
            Sleep (inject_Z (math_ceil_div
                               (Z.of_nat (String.length content) * 8)
                               (_baudrate (hat s))))]
        ++ exchange "AT+CFSTERM".
Proof.
  unfold _put_file_in_flash.
  rewrite run_at_command by reflexivity. rewrite run_raise_if.
  destruct (negb _); [discriminate|].
  unfold getsize, read_file.
  destruct (files filename) as [content|] eqn:Hfile;
    [|rewrite run_assoc, run_raise; discriminate].
  rewrite run_assoc, !run_ret. rewrite run_at_command by reflexivity.
  rewrite run_raise_if. destruct (negb _); [discriminate|].
  rewrite run_ret. unfold uart_write. rewrite run_emit, run_gets.
  unfold sleep_ceil. cbn [hat at_after].
  destruct (_ =? 0); [rewrite run_raise; discriminate|].
  rewrite run_bind. unfold sleep. destruct (Qle_bool _ _); [|discriminate].
  cbv beta iota zeta. rewrite run_uart_pending.
  assert (Hdone : ∀ st : St,
    hat st = hat s →
    trace (world st)
    = (trace (world (at_after (cfswfile_command flashname
                                 (Z.of_nat (String.length content))) (1 # 10)
                              (at_after "AT+CFSINIT" (1 # 10) s)))
       ++ [Write content])
      ++ [Sleep (inject_Z (math_ceil_div
                             (Z.of_nat (String.length content) * 8)
                             (_baudrate (hat s))))] →
    (at_command modem "AT+CFSTERM" (1 # 10)
     ≫= λ res, raise_if (negb (line_in "OK" res))
                        (SystemError "Failed to close file buffer: ")) st
    = (Ok tt, s') →
    ∃ content0,
      Some content = Some content0
      ∧ hat s' = hat s
      ∧ trace (world s')
        = trace (world s) ++ exchange "AT+CFSINIT"
          ++ exchange (cfswfile_command flashname
                         (Z.of_nat (String.length content0)))
          ++ [Write content0;
              Sleep (inject_Z (math_ceil_div
                                 (Z.of_nat (String.length content0) * 8)
                                 (_baudrate (hat s))))]
          ++ exchange "AT+CFSTERM").
  { intros st Hhat Htr. rewrite run_at_command by reflexivity.
    unfold raise_if. destruct (negb _); [discriminate|].
    intros Hrun. injection Hrun as <-. exists content.
    split; [reflexivity|]. split; [exact Hhat|].
    rewrite trace_at_after, Htr, !trace_at_after. unfold exchange.
    now rewrite <- !app_assoc. }
  destruct (str_falsy _).
  - rewrite run_ret. apply Hdone; reflexivity.
  - rewrite run_assoc, run_uart_read_all, run_raise_if.
    destruct (negb _); [discriminate|]. apply Hdone; reflexivity.
Qed.

(** X16: with the three files present, [pdp_context_configure_ssl] checks
    the active context before any I/O and raises with the state, trace
    included, as it was: SystemError when no context is active and also
    when the active context is context 0, KeyError when the pointer names
    a context that is not in the registry, SystemError when the active
    context has no address or an empty one. *)
Theorem configure_ssl_needs_addressed_context (ca_file cert_file key_file : string)
    (s : St) :
  is_Some (files ca_file) → is_Some (files cert_file) →
  is_Some (files key_file) →
  let run := pdp_context_configure_ssl modem files ca_file cert_file key_file s in
  (_active_pdp_context (hat s) = None ∨ _active_pdp_context (hat s) = Some 0 →
   run = (Raise (SystemError "No active PDP context"), s))
  ∧ (∀ k, _active_pdp_context (hat s) = Some k → k ≠ 0 →
       _pdp_contexts (hat s) !! k = None →
       run = (Raise (KeyError k), s))
  ∧ (∀ k c, _active_pdp_context (hat s) = Some k → k ≠ 0 →
       _pdp_contexts (hat s) !! k = Some c →
       ip_falsy (PdpContext.ip_address c) = true →
       run = (Raise (SystemError "No valid IP address"), s)).
Proof.
  intros Hca Hcert Hkey run. subst run.
  unfold pdp_context_configure_ssl, isfile, active_context.
  rewrite !bool_decide_eq_true_2 by assumption. cbn [negb].
  rewrite !run_raise_if, run_assoc, run_gets. repeat split.
  - intros [-> | ->]; reflexivity.
  - intros k -> Hk Hnone. rewrite run_assoc, run_raise_if.
    destruct (Z.eqb_spec k 0) as [|_]; [contradiction|].
    now rewrite run_assoc, run_gets, Hnone.
  - intros k c -> Hk Hc Hip. rewrite run_assoc, run_raise_if.
    destruct (Z.eqb_spec k 0) as [|_]; [contradiction|].
    now rewrite run_assoc, run_gets, Hc, run_ret, run_raise_if, Hip.
Qed.

(** X17: with the files present and an addressed active context other than
    context 0, when no line of the clock response contains the quoted
    timestamp marker, [pdp_context_configure_ssl] raises SystemError having
    written the clock query only: no file is pushed. *)
Theorem configure_ssl_needs_clock (ca_file cert_file key_file : string)
    (k : Z) (c : PdpContext.t) (s : St) :
  is_Some (files ca_file) → is_Some (files cert_file) →
  is_Some (files key_file) →
  _active_pdp_context (hat s) = Some k → k ≠ 0 →
  _pdp_contexts (hat s) !! k = Some c →
  ip_falsy (PdpContext.ip_address c) = false →
  existsb (str_contains ("+CCLK: " +:+ chr DQUOTE))
          (at_lines modem "AT+CCLK?" (1 # 10) s) = false →
  pdp_context_configure_ssl modem files ca_file cert_file key_file s
  = (Raise (SystemError "Time not synchronized: "),
     mkSt (hat s) (mkWorld EmptyString (trace (world s) ++ exchange "AT+CCLK?"))).
Proof.
  intros Hca Hcert Hkey Hactive Hk Hc Hip Hclock.
  unfold pdp_context_configure_ssl, isfile, active_context.
  rewrite !bool_decide_eq_true_2 by assumption. cbn [negb].
  rewrite !run_raise_if, run_assoc, run_gets, Hactive.
  rewrite run_assoc, run_raise_if.
  destruct (Z.eqb_spec k 0) as [|_]; [contradiction|].
  rewrite run_assoc, run_gets, Hc, run_ret, run_raise_if, Hip.
  rewrite run_at_command by reflexivity.
  rewrite run_raise_if, Hclock. cbn [negb].
  now rewrite at_after_exchange.
Qed.

(** *** More on the session manager *)

(** X18: [mqtt_connect] checks the active context before any I/O and
    raises with the state, trace included, as it was: ValueError when no
    context is active and also when the active context is context 0,
    KeyError when the pointer names a context that is not in the registry,
    ValueError when the active context has no address or an empty one. *)
Theorem mqtt_connect_needs_addressed_context (url : string) (port : Z)
    (cid : string) (ka : Z) (ssl : bool) (s : St) :
  let run := mqtt_connect modem url port cid ka ssl s in
  (_active_pdp_context (hat s) = None ∨ _active_pdp_context (hat s) = Some 0 →
   run = (Raise (ValueError "No valid PDP context"), s))
  ∧ (∀ k, _active_pdp_context (hat s) = Some k → k ≠ 0 →
       _pdp_contexts (hat s) !! k = None →
       run = (Raise (KeyError k), s))
  ∧ (∀ k c, _active_pdp_context (hat s) = Some k → k ≠ 0 →
       _pdp_contexts (hat s) !! k = Some c →
       ip_falsy (PdpContext.ip_address c) = true →
       run = (Raise (ValueError "No valid IP address in context"), s)).
Proof.
  intros run. subst run. unfold mqtt_connect, active_context.
  rewrite run_assoc, run_gets. repeat split.
  - intros [-> | ->]; reflexivity.
  - intros k -> Hk Hnone. rewrite run_assoc, run_raise_if.
    destruct (Z.eqb_spec k 0) as [|_]; [contradiction|].
    now rewrite run_assoc, run_gets, Hnone.
  - intros k c -> Hk Hc Hip. rewrite run_assoc, run_raise_if.
    destruct (Z.eqb_spec k 0) as [|_]; [contradiction|].
    now rewrite run_assoc, run_gets, Hc, run_ret, run_raise_if, Hip.
Qed.

Lemma smconf_is_not_smconn (key value : string) :
  Write (smconf key value +:+ chr CR) ≠ Write ("AT+SMCONN" +:+ chr CR).
Proof.
  intros H. injection H as H. unfold smconf in H.
  cbv [String.append] in H. discriminate H.
Qed.

(** X19: with [ssl] set, [mqtt_connect] never returns normally: it raises,
    leaves the controller record as it was, and what it wrote, if
    anything, are session configuration commands only, never the connect
    command. *)
Theorem mqtt_connect_ssl_never_connects (url : string) (port : Z)
    (cid : string) (ka : Z) (s : St) :
  ∃ e s' more,
    mqtt_connect modem url port cid ka true s = (Raise e, s')
    ∧ hat s' = hat s
    ∧ trace (world s') = trace (world s) ++ more
    ∧ Write ("AT+SMCONN" +:+ chr CR) ∉ more.
Proof.
  pose proof (smconf_is_not_smconn "URL" (url +:+ "," +:+ str_of_Z port)) as N1.
  pose proof (smconf_is_not_smconn "KEEPTIME" (str_of_Z ka)) as N2.
  pose proof (smconf_is_not_smconn "CLEANSS" "1") as N3.
  pose proof (smconf_is_not_smconn "CLIENTID" cid) as N4.
  assert (N5 : ∀ e : Q, Sleep e ≠ Write ("AT+SMCONN" +:+ chr CR))
    by (intros e H; discriminate H).
  unfold mqtt_connect, active_context.
  rewrite run_assoc, run_gets.
  destruct (_active_pdp_context (hat s)) as [key|];
    [|rewrite run_raise; eexists _, s, []; rewrite app_nil_r;
      repeat split; apply not_elem_of_nil].
  rewrite !run_assoc, run_raise_if.
  destruct (key =? 0);
    [eexists _, s, []; rewrite app_nil_r; repeat split; apply not_elem_of_nil|].
  rewrite run_assoc, run_gets.
  destruct (_pdp_contexts (hat s) !! key) as [c|];
    [|rewrite run_raise; eexists _, s, []; rewrite app_nil_r;
      repeat split; apply not_elem_of_nil].
  rewrite run_ret, run_raise_if.
  destruct (ip_falsy _);
    [eexists _, s, []; rewrite app_nil_r; repeat split; apply not_elem_of_nil|].
  fold (smconf "URL" (url +:+ "," +:+ str_of_Z port)).
  fold (smconf "KEEPTIME" (str_of_Z ka)).
  change ("AT+SMCONF=" +:+ quoted "CLEANSS" +:+ ",1")
    with (smconf "CLEANSS" "1").
  fold (smconf "CLIENTID" cid).
  rewrite run_at_command by reflexivity. rewrite run_raise_if.
  destruct (negb _).
  { eexists _, _, _. repeat split; [apply trace_at_after|].
    rewrite !not_elem_of_cons. auto using not_elem_of_nil. }
  rewrite run_at_command by reflexivity. rewrite run_raise_if.
  destruct (negb _).
  { eexists _, _, _. repeat split;
      [rewrite !trace_at_after, <- app_assoc; reflexivity|].
    cbn [app]. rewrite !not_elem_of_cons. auto 10 using not_elem_of_nil. }
  rewrite run_at_command by reflexivity. rewrite run_raise_if.
  destruct (negb _).
  { eexists _, _, _. repeat split;
      [rewrite !trace_at_after, <- !app_assoc; reflexivity|].
    cbn [app]. rewrite !not_elem_of_cons. auto 12 using not_elem_of_nil. }
  rewrite run_at_command by reflexivity. rewrite run_raise_if.
  destruct (negb _).
  { eexists _, _, _. repeat split;
      [rewrite !trace_at_after, <- !app_assoc; reflexivity|].
    cbn [app]. rewrite !not_elem_of_cons. auto 15 using not_elem_of_nil. }
  rewrite run_raise.
  eexists _, _, _. repeat split;
    [rewrite !trace_at_after, <- !app_assoc; reflexivity|].
  cbn [app]. rewrite !not_elem_of_cons. auto 15 using not_elem_of_nil.
Qed.

(** X20: when [mqtt_connect] returns normally, [ssl] was not set, the
    active pointer named a registered context other than context 0 holding
    a non-empty address, the connected flag is now true with the rest of
    the controller record as before, and the commands written were, in
    this order, the broker URL and port, the keepalive, the clean-session
    flag, the client id and the connect command. *)
Theorem mqtt_connect_success_commands (url : string) (port : Z)
    (cid : string) (ka : Z) (ssl : bool) (s s' : St) :
  mqtt_connect modem url port cid ka ssl s = (Ok tt, s') →
  ssl = false
  ∧ hat s' = with_mqtt_connected true (hat s)
  ∧ (∃ k c, _active_pdp_context (hat s) = Some k ∧ k ≠ 0
            ∧ _pdp_contexts (hat s) !! k = Some c
            ∧ ip_falsy (PdpContext.ip_address c) = false)
  ∧ trace (world s')
    = trace (world s)
      ++ exchange (smconf "URL" (url +:+ "," +:+ str_of_Z port))
      ++ exchange (smconf "KEEPTIME" (str_of_Z ka))
      ++ exchange (smconf "CLEANSS" "1")
      ++ exchange (smconf "CLIENTID" cid)
      ++ exchange "AT+SMCONN".
Proof.
  unfold mqtt_connect, active_context.
  rewrite run_assoc, run_gets.
  destruct (_active_pdp_context (hat s)) as [key|] eqn:Hactive;
    [|discriminate].
  rewrite !run_assoc, run_raise_if.
  destruct (Z.eqb_spec key 0) as [|Hkey]; [discriminate|].
  rewrite run_assoc, run_gets.
  destruct (_pdp_contexts (hat s) !! key) as [c|] eqn:Hc; [|discriminate].
  rewrite run_ret, run_raise_if.
  destruct (ip_falsy _) eqn:Hip; [discriminate|].
  fold (smconf "URL" (url +:+ "," +:+ str_of_Z port)).
  fold (smconf "KEEPTIME" (str_of_Z ka)).
  change ("AT+SMCONF=" +:+ quoted "CLEANSS" +:+ ",1")
    with (smconf "CLEANSS" "1").
  fold (smconf "CLIENTID" cid).
  rewrite run_at_command by reflexivity. rewrite run_raise_if.
  destruct (negb _); [discriminate|].
  rewrite run_at_command by reflexivity. rewrite run_raise_if.
  destruct (negb _); [discriminate|].
  rewrite run_at_command by reflexivity. rewrite run_raise_if.
  destruct (negb _); [discriminate|].
  rewrite run_at_command by reflexivity. rewrite run_raise_if.
  destruct (negb _); [discriminate|].
  destruct ssl; [discriminate|].
  rewrite run_ret, run_at_command by reflexivity. rewrite run_raise_if.
  destruct (negb _); [discriminate|].
  intros Hrun. injection Hrun as <-.
  split; [reflexivity|]. split; [reflexivity|].
  split; [exists key, c; auto|].
  cbn [world trace]. unfold at_trace at 1. rewrite !trace_at_after.
  unfold exchange. now rewrite <- !app_assoc.
Qed.

(** X21: the two ways a publish can end once the bit rate is positive.
    Without a line [>] in the response to the publish-intent command it
    raises SystemError and the payload is never written.  With the prompt
    it writes the payload and sleeps the transmission wait, and then
    returns normally exactly when the modem delivered no byte during that
    wait: any byte delivered, a confirmation included, makes it raise
    AttributeError.  The controller record is as before in every case. *)
Theorem publish_outcome (topic payload : string) (qos : Z) (retain : bool)
    (s : St) :
  0 < _baudrate (hat s) →
  let command := smpub_command topic payload qos retain in
  let sent := trace (world s) ++ exchange command in
  let waited :=
    sent ++ [Write payload;
             Sleep (inject_Z (math_ceil_div (Z.of_nat (String.length payload))
                                            (_baudrate (hat s))))] in
  (line_in ">" (at_lines modem command (1 # 10) s) = false →
   mqtt_publish modem topic payload qos retain s
   = (Raise (SystemError "No prompt for MQTT payload: "),
      mkSt (hat s) (mkWorld EmptyString sent)))
  ∧ (line_in ">" (at_lines modem command (1 # 10) s) = true →
     mqtt_publish modem topic payload qos retain s
     = (if str_falsy (modem waited) then Ok tt
        else Raise (AttributeError "'bytes' object has no attribute 'encode'"),
        mkSt (hat s) (mkWorld EmptyString waited))).
Proof.
  intros Hbaud command sent waited. unfold mqtt_publish. cbv zeta.
  fold command. rewrite run_at_command by reflexivity.
  rewrite run_raise_if, at_after_exchange. fold sent. split.
  - intros ->. reflexivity.
  - intros ->. cbn [negb]. unfold uart_write.
    rewrite run_emit, run_gets.
    rewrite sleep_ceil_run by (cbn; lia).
    rewrite run_uart_pending. cbn [hat world trace in_waiting].
    replace ((sent ++ [Write payload])
             ++ [Sleep (inject_Z (math_ceil_div
                                    (Z.of_nat (String.length payload))
                                    (_baudrate (hat s))))])
      with waited by (subst waited; now rewrite <- app_assoc).
    change (EmptyString +:+ modem waited) with (modem waited).
    destruct (str_falsy (modem waited)) eqn:Hquiet.
    + destruct (modem waited); [reflexivity | discriminate Hquiet].
    + rewrite run_uart_read_all. reflexivity.
Qed.

(** X22: the ready state is probed at most once.  After one read of
    [ready], whatever it found, a second read returns the same answer and
    leaves the state, trace included, as the first read left it. *)
Theorem ready_read_twice (s : St) :
  let first := ready modem s in
  ready modem (snd first) = (fst first, snd first).
Proof.
  cbv zeta.
  assert (Hknown : ∀ st b, _ready (hat st) = Some b →
                           ready modem st = (Ok (Some b), st)).
  { intros st b Hb. unfold ready. rewrite run_gets, Hb, run_ret.
    unfold gets. now rewrite Hb. }
  destruct (_ready (hat s)) as [b|] eqn:Hr.
  - rewrite (Hknown s b Hr). cbn [fst snd]. exact (Hknown s b Hr).
  - assert (Hfirst : ∃ b s', ready modem s = (Ok (Some b), s')
                             ∧ _ready (hat s') = Some b).
    { destruct (initialize_sets_ready 3 s) as (b & s' & Hrun & Hb).
      exists b, s'. split; [|exact Hb].
      unfold ready. rewrite run_gets, Hr, !run_bind, Hrun. cbn.
      unfold gets. cbn. now rewrite Hb. }
    destruct Hfirst as (b & s' & -> & Hb). cbn [fst snd].
    exact (Hknown s' b Hb).
Qed.

End Laws.

(** ** Worked scenarios *)

(** C2: the constructor leaves the connected flag true, so on a controller
    whose context 1 is active with an address, a connect that the broker
    refuses raises SystemError and the flag is still true. *)
Theorem mqtt_connect_refused_flag_true :
  _mqtt_connected Hat_init = true
  ∧ (let r := mqtt_connect row_1_modem "broker.example" 1883 "pi" 60 false
                           context_1_active in
     fst r = Raise (SystemError "Failed to connect to MQTT broker: ")
     ∧ _mqtt_connected (hat (snd r)) = true)
  ∧ (let r := mqtt_connect row_1_modem "broker.example" 1883 "pi" 60 false
                           St_init in
     fst r = Raise (ValueError "No valid PDP context")
     ∧ _mqtt_connected (hat (snd r)) = true).
Proof. vm_compute. repeat split. Qed.

Lemma define_rejects_before_io_witness :
  ∃ msg, pdp_context_define silent_modem 4 "ciot" IP_V4 St_init
         = (Raise (ValueError msg), St_init).
Proof.
  apply (define_rejects_before_io silent_modem 4 "ciot" IP_V4 St_init).
  left. right. lia.
Defined.

Lemma configure_ssl_missing_file_witness :
  ∃ msg, pdp_context_configure_ssl round_trip_modem one_file
           "ca.pem" "client.pem" "client.key" context_1_active
         = (Raise (FileNotFoundError msg), context_1_active).
Proof.
  apply (configure_ssl_missing_file round_trip_modem one_file
           "ca.pem" "client.pem" "client.key" context_1_active).
  right. left. reflexivity.
Defined.

Lemma config_command_trailing_fields_witness :
  (config_command 0 IP_V4 "ciot" "user" EmptyString None
   = config_base 0 IP_V4 "ciot" +:+ "," +:+ "user"
   ∧ ends_with (config_command 0 IP_V4 "ciot" "user" EmptyString None)
               ("," +:+ "user"))
  ∧ (config_command 0 IP_V4 "ciot" "user" "secret" None
     = config_base 0 IP_V4 "ciot" +:+ "," +:+ "user" +:+ "," +:+ "secret"
     ∧ ends_with (config_command 0 IP_V4 "ciot" "user" "secret" None)
                 ("," +:+ "user" +:+ "," +:+ "secret")).
Proof.
  destruct (config_command_trailing_fields 0 IP_V4 "ciot" "user" "secret" PAP)
    as (Huser & Hboth & _).
  split; [apply Huser | apply Hboth]; discriminate.
Defined.

Example config_command_pap :
  config_command 0 IP_V4 "ciot" EmptyString EmptyString (Some PAP)
  = "AT+CNCFG=0," +:+ quoted "DataService.IP_V4" +:+ "," +:+ quoted "ciot"
    +:+ ",,,1".
Proof. vm_compute. reflexivity. Qed.

Lemma transmission_wait_is_ceiling_witness :
  (∃ w, (w - 1) * 9600 < 5 ≤ w * 9600
        ∧ trace (world (snd (mqtt_publish round_trip_modem "t" "hello" 0 false
                                          St_init)))
          = at_trace (smpub_command "t" "hello" 0 false) (1 # 10) St_init
            ++ [Write "hello"; Sleep (inject_Z w)])
  ∧ (∃ w rest, (w - 1) * 9600 < 27 * 8 ≤ w * 9600
        ∧ trace (world (snd (_put_file_in_flash round_trip_modem one_file
                                                "ca.pem" "ca.crt" St_init)))
          = at_trace (cfswfile_command "ca.crt" 27) (1 # 10)
                     (at_after "AT+CFSINIT" (1 # 10) St_init)
            ++ [Write "-----BEGIN CERTIFICATE-----"; Sleep (inject_Z w)]
            ++ rest).
Proof.
  destruct (transmission_wait_is_ceiling round_trip_modem one_file
              "t" "hello" 0 false "ca.pem" "ca.crt"
              "-----BEGIN CERTIFICATE-----" St_init)
    as [Hpublish Hupload]; [reflexivity|].
  split.
  - apply Hpublish. vm_compute. reflexivity.
  - apply Hupload; vm_compute; reflexivity.
Defined.

Example publish_waits_one_second :
  trace (world (snd (mqtt_publish round_trip_modem "t" "hello" 0 false St_init)))
  = [Write (smpub_command "t" "hello" 0 false +:+ chr CR); Sleep (1 # 10);
     Write "hello"; Sleep 1].
Proof. vm_compute. reflexivity. Qed.

(** Reading [ready] on a controller fresh from its constructor probes a
    silent modem three times and pulses the power line each time. *)
Lemma ready_probes_when_unknown :
  _ready (hat St_init) = None
  ∧ trace (world (snd (ready silent_modem St_init)))
    = [Write ("AT" +:+ chr CR); Sleep 1; Blink 1 5;
       Write ("AT" +:+ chr CR); Sleep 1; Blink 1 5;
       Write ("AT" +:+ chr CR); Sleep 1; Blink 1 5]
  ∧ trace (world (snd (ready silent_modem St_init))) ≠ trace (world St_init).
Proof. vm_compute. repeat split. discriminate. Qed.

Lemma ready_probes_only_when_unknown_witness :
  ready silent_modem context_0_active = (Ok (Some true), context_0_active)
  ∧ (∃ responsive s',
       initialize silent_modem 3 St_init = (Ok responsive, s')
       ∧ ready silent_modem St_init = (Ok (Some responsive), s'))
  ∧ _ready (hat (exec round_trip_modem no_files (OpDefine 0 "ciot" IP_V4)
                      St_init))
    = _ready (hat St_init).
Proof.
  split; [|split].
  - apply (ready_probes_only_when_unknown silent_modem no_files
             context_0_active). reflexivity.
  - apply (ready_probes_only_when_unknown silent_modem no_files St_init).
    reflexivity.
  - apply (ready_probes_only_when_unknown round_trip_modem no_files St_init);
      discriminate.
Defined.

Lemma deactivate_raises_before_clearing_witness :
  let r := pdp_context_activate silent_modem 1 DEACTIVATE context_1_active in
  (∃ msg, fst r = Raise (AttributeError msg))
  ∧ hat (snd r) = hat context_1_active
  ∧ trace (world (snd r))
    = trace (world context_1_active) ++ exchange (cnact_command 1 DEACTIVATE).
Proof.
  apply (deactivate_raises_before_clearing silent_modem 1
           (addressed_context 1 "iot" "10.0.0.6") context_1_active);
    vm_compute; reflexivity.
Defined.

(** After the failed deactivation context 1 still holds its address and
    is still the active one. *)
Example deactivate_leaves_address_and_pointer :
  let s' := snd (pdp_context_activate silent_modem 1 DEACTIVATE
                                      context_1_active) in
  _pdp_contexts (hat s') !! 1 = Some (addressed_context 1 "iot" "10.0.0.6")
  ∧ _active_pdp_context (hat s') = Some 1.
Proof. vm_compute. split; reflexivity. Qed.

Lemma activate_raises_before_table_query_witness :
  let r := pdp_context_activate row_1_modem 0 ACTIVATE context_1_active in
  (∃ msg, fst r = Raise (AttributeError msg))
  ∧ hat (snd r) = hat context_1_active
  ∧ trace (world (snd r))
    = trace (world context_1_active) ++ exchange (cnact_command 0 ACTIVATE)
  ∧ Write ("AT+CNACT?" +:+ chr CR) ∉ exchange (cnact_command 0 ACTIVATE).
Proof.
  apply (activate_raises_before_table_query row_1_modem 0 ACTIVATE
           (configured_context 0 "ciot") context_1_active).
  - vm_compute. reflexivity.
  - reflexivity.
  - reflexivity.
  - discriminate.
Defined.

Lemma context_0_active_lookup (id : Z) (c : PdpContext.t) :
  _pdp_contexts (hat context_0_active) !! id = Some c →
  (id = 0 ∧ c = addressed_context 0 "ciot" "10.0.0.5")
  ∨ (id = 1 ∧ c = configured_context 1 "iot").
Proof.
  cbn [context_0_active hat _pdp_contexts]. intros Hc.
  destruct (decide (id = 0)) as [->|H0].
  { rewrite lookup_insert_eq in Hc. injection Hc as <-. now left. }
  rewrite lookup_insert_ne in Hc by congruence.
  destruct (decide (id = 1)) as [->|H1].
  { rewrite lookup_insert_eq in Hc. injection Hc as <-. now right. }
  rewrite lookup_insert_ne, lookup_empty in Hc by congruence. discriminate Hc.
Qed.

Lemma context_0_active_address_iff_active :
  address_iff_active (hat context_0_active).
Proof.
  intros id c Hc.
  destruct (context_0_active_lookup id c Hc) as [[-> ->] | [-> ->]].
  - split; [intros _; split; reflexivity | intros _; discriminate].
  - split; [intros H; now destruct H | intros [H _]; discriminate H].
Defined.

Lemma address_iff_active_invariant_witness :
  address_iff_active
    (hat (exec row_1_modem no_files (OpActivate 1 ACTIVATE) context_0_active)).
Proof.
  destruct (address_iff_active_invariant row_1_modem no_files) as [_ Hstep].
  apply Hstep. exact context_0_active_address_iff_active.
Defined.

(** *** Instances of the further properties *)

Lemma at_command_exchange_witness :
  ∃ lines s',
    at_command round_trip_modem "AT" (1 # 10)
               (mkSt (hat St_init) (mkWorld "+CPIN: READY" (trace (world St_init))))
    = (Ok lines, s')
    ∧ lines = response_lines
                (round_trip_modem (trace (world St_init)
                                   ++ [Write ("AT" +:+ chr CR); Sleep (1 # 10)]))
    ∧ Forall (λ l, l ≠ EmptyString) lines
    ∧ hat s' = hat St_init
    ∧ in_waiting (world s') = EmptyString
    ∧ trace (world s')
      = trace (world St_init) ++ [Write ("AT" +:+ chr CR); Sleep (1 # 10)].
Proof.
  apply (at_command_exchange round_trip_modem "AT" (1 # 10) "+CPIN: READY"
                             St_init).
  - apply Qle_bool_iff. reflexivity.
  - apply Qle_bool_iff. reflexivity.
  - reflexivity.
  - vm_compute. reflexivity.
Defined.

Lemma initialize_bounded_retry_witness :
  ∃ b s' j,
    initialize agreeable_modem 3 St_init = (Ok b, s')
    ∧ hat s' = with_ready (Some b) (hat St_init)
    ∧ trace (world s')
      = trace (world St_init) ++ concat (replicate j failed_probe)
        ++ (if b then probe else [])
    ∧ (∀ i, (i < j)%nat →
            probe_answered agreeable_modem (trace (world St_init)) i = false)
    ∧ (if b then (j < Z.to_nat 3)%nat
                 ∧ probe_answered agreeable_modem (trace (world St_init)) j
                   = true
       else j = Z.to_nat 3).
Proof.
  apply (initialize_bounded_retry agreeable_modem 3 St_init).
  - intros tr. reflexivity.
  - reflexivity.
Defined.

(** With the modem that answers OK the first probe ends the retry; with
    the silent one all three probes go unanswered. *)
Example initialize_first_probe_answered :
  initialize agreeable_modem 3 St_init
  = (Ok true,
     mkSt (with_ready (Some true) Hat_init) (mkWorld EmptyString probe))
  ∧ fst (initialize silent_modem 3 St_init) = Ok false.
Proof. vm_compute. split; reflexivity. Qed.

Lemma at_command_negative_timeout_witness :
  at_command round_trip_modem "AT" (-1 # 2) St_init
  = (Raise (ValueError "sleep length must be non-negative"),
     mkSt (hat St_init)
          (mkWorld EmptyString
                   (trace (world St_init) ++ [Write ("AT" +:+ chr CR)]))).
Proof.
  apply (at_command_negative_timeout round_trip_modem "AT" (-1 # 2) St_init).
  reflexivity.
Defined.

Lemma unknown_context_rejected_before_io_witness :
  pdp_context_configure silent_modem 3 None None EmptyString EmptyString None
                        context_0_registered
  = (Raise (ValueError ("PDP context ID " +:+ str_of_Z 3 +:+ " not defined")),
     context_0_registered)
  ∧ pdp_context_activate silent_modem 0 ACTIVATE context_0_registered
    = (Raise (ValueError ("PDP context ID " +:+ str_of_Z 0
                          +:+ " not configured")),
       context_0_registered).
Proof.
  destruct (unknown_context_rejected_before_io silent_modem 3
              context_0_registered) as [Hundefined _].
  destruct (unknown_context_rejected_before_io silent_modem 0
              context_0_registered) as [_ Hunconfigured].
  split.
  - apply Hundefined. vm_compute. reflexivity.
  - apply (Hunconfigured (PdpContext.init 0 "ciot" IP_V4)).
    + vm_compute. reflexivity.
    + reflexivity.
Defined.

Lemma configure_outcome_witness :
  let r := pdp_context_configure round_trip_modem 0 (Some "other") (Some IP_V6)
             "user" "secret" (Some PAP) context_0_registered in
  fst r = Ok tt
  ∧ _pdp_contexts (hat (snd r)) !! 0
    = Some (PdpContext.mk 0 "ciot" IP_V4 None true
              (Some "user") (Some "secret") (Some PAP)).
Proof.
  destruct (configure_outcome round_trip_modem 0 (Some "other") (Some IP_V6)
              "user" "secret" (Some PAP) (PdpContext.init 0 "ciot" IP_V4)
              context_0_registered) as (_ & Hok & _);
    [vm_compute; reflexivity|].
  destruct Hok as (Hrun & Hctx & _); [vm_compute; reflexivity|].
  split; [exact Hrun | exact Hctx].
Defined.

Lemma activate_non_ip_only_sends_witness :
  pdp_context_activate silent_modem 2 ACTIVATE context_2_nonip
  = (Ok tt,
     mkSt (hat context_2_nonip)
          (mkWorld EmptyString
                   (trace (world context_2_nonip)
                    ++ exchange (cnact_command 2 ACTIVATE)))).
Proof.
  apply (activate_non_ip_only_sends silent_modem 2 ACTIVATE
           (PdpContext.set_configured EmptyString EmptyString None
              (PdpContext.init 2 "nidd" NONIP)) context_2_nonip);
    vm_compute; reflexivity.
Defined.

Lemma attributes_written_by_their_operations_witness :
  let h' := hat (exec round_trip_modem no_files (OpDefine 0 "ciot" IP_V4)
                      context_0_active) in
  _ready h' = _ready (hat context_0_active)
  ∧ _pdp_contexts h' = _pdp_contexts (hat context_0_active)
  ∧ _active_pdp_context h' = _active_pdp_context (hat context_0_active)
  ∧ _mqtt_connected h' = _mqtt_connected (hat context_0_active).
Proof.
  destruct (attributes_written_by_their_operations round_trip_modem no_files
              (OpDefine 0 "ciot" IP_V4) context_0_active)
    as (_ & _ & Hready & Hregistry & Hsession).
  destruct (Hregistry eq_refl) as [Hcontexts Hactive].
  split; [apply Hready; reflexivity|].
  split; [exact Hcontexts|].
  split; [exact Hactive | apply Hsession; reflexivity].
Defined.

Lemma put_file_success_commands_witness :
  ∃ content,
    one_file "ca.pem" = Some content
    ∧ hat (snd (_put_file_in_flash round_trip_modem one_file "ca.pem" "ca.crt"
                                   St_init)) = hat St_init
    ∧ trace (world (snd (_put_file_in_flash round_trip_modem one_file
                                            "ca.pem" "ca.crt" St_init)))
      = trace (world St_init) ++ exchange "AT+CFSINIT"
        ++ exchange (cfswfile_command "ca.crt"
                       (Z.of_nat (String.length content)))
        ++ [Write content;
            Sleep (inject_Z (math_ceil_div
                               (Z.of_nat (String.length content) * 8)
                               (_baudrate (hat St_init))))]
        ++ exchange "AT+CFSTERM".
Proof.
  apply (put_file_success_commands round_trip_modem one_file
           "ca.pem" "ca.crt" St_init).
  vm_compute. reflexivity.
Defined.

Lemma configure_ssl_needs_addressed_context_witness :
  pdp_context_configure_ssl round_trip_modem three_files
    "ca.pem" "client.pem" "client.key" context_0_active
  = (Raise (SystemError "No active PDP context"), context_0_active)
  ∧ pdp_context_configure_ssl round_trip_modem three_files
      "ca.pem" "client.pem" "client.key" St_init
    = (Raise (SystemError "No active PDP context"), St_init).
Proof.
  split.
  - apply (configure_ssl_needs_addressed_context round_trip_modem three_files
             "ca.pem" "client.pem" "client.key" context_0_active);
      [eexists; reflexivity.. | right; reflexivity].
  - apply (configure_ssl_needs_addressed_context round_trip_modem three_files
             "ca.pem" "client.pem" "client.key" St_init);
      [eexists; reflexivity.. | left; reflexivity].
Defined.

Lemma configure_ssl_needs_clock_witness :
  pdp_context_configure_ssl silent_modem three_files
    "ca.pem" "client.pem" "client.key" context_1_active
  = (Raise (SystemError "Time not synchronized: "),
     mkSt (hat context_1_active)
          (mkWorld EmptyString
                   (trace (world context_1_active) ++ exchange "AT+CCLK?"))).
Proof.
  apply (configure_ssl_needs_clock silent_modem three_files
           "ca.pem" "client.pem" "client.key" 1
           (addressed_context 1 "iot" "10.0.0.6") context_1_active);
    first [ eexists; reflexivity | discriminate | vm_compute; reflexivity ].
Defined.

Lemma mqtt_connect_needs_addressed_context_witness :
  mqtt_connect agreeable_modem "broker.example" 1883 "pi" 60 false
               context_0_active
  = (Raise (ValueError "No valid PDP context"), context_0_active).
Proof.
  apply (mqtt_connect_needs_addressed_context agreeable_modem
           "broker.example" 1883 "pi" 60 false context_0_active).
  right. reflexivity.
Defined.

Lemma mqtt_connect_success_commands_witness :
  let s' := snd (mqtt_connect agreeable_modem "broker.example" 1883 "pi" 60
                              false context_1_active) in
  false = false
  ∧ hat s' = with_mqtt_connected true (hat context_1_active)
  ∧ (∃ k c, _active_pdp_context (hat context_1_active) = Some k ∧ k ≠ 0
            ∧ _pdp_contexts (hat context_1_active) !! k = Some c
            ∧ ip_falsy (PdpContext.ip_address c) = false)
  ∧ trace (world s')
    = trace (world context_1_active)
      ++ exchange (smconf "URL" ("broker.example" +:+ "," +:+ str_of_Z 1883))
      ++ exchange (smconf "KEEPTIME" (str_of_Z 60))
      ++ exchange (smconf "CLEANSS" "1")
      ++ exchange (smconf "CLIENTID" "pi")
      ++ exchange "AT+SMCONN".
Proof.
  apply (mqtt_connect_success_commands agreeable_modem "broker.example" 1883
           "pi" 60 false context_1_active).
  vm_compute. reflexivity.
Defined.

Lemma publish_outcome_witness :
  mqtt_publish silent_modem "t" "hello" 0 false St_init
  = (Raise (SystemError "No prompt for MQTT payload: "),
     mkSt (hat St_init)
          (mkWorld EmptyString
                   (trace (world St_init)
                    ++ exchange (smpub_command "t" "hello" 0 false))))
  ∧ fst (mqtt_publish round_trip_modem "t" "hello" 0 false St_init)
    = Raise (AttributeError "'bytes' object has no attribute 'encode'").
Proof.
  destruct (publish_outcome silent_modem "t" "hello" 0 false St_init)
    as [Hnone _]; [reflexivity|].
  destruct (publish_outcome round_trip_modem "t" "hello" 0 false St_init)
    as [_ Hprompt]; [reflexivity|].
  split.
  - apply Hnone. vm_compute. reflexivity.
  - rewrite Hprompt by (vm_compute; reflexivity). vm_compute. reflexivity.
Defined.

